(** * Utility-meter backend: assignment lifecycle and approval workflow

    A shallow embedding of the request handlers of
    [app/api/v1/endpoints/assignments.py], [approvals.py] and the
    [delete_meter] handler of [meters.py], over the tables declared in
    [app/models].

    Conventions.
    - A table is the list of its rows, in storage order.  A query
      [select(T).where(p)] is [filter p] over the table.
    - A handler is a function of the database it is run against.  It
      returns [Err e] when the Python code raises before [db.commit()]
      (nothing is persisted), and [Ok (db', response)] with the committed
      database otherwise.
    - [uuid.uuid4] and the SQL [now()] are arguments of the handlers that
      draw from them. *)

From Stdlib Require Import List String ZArith NArith Bool Arith Lia DecimalString.
Import ListNotations.
Local Open Scope string_scope.

(** ** Errors and the request monad *)

Definition HTTP_400_BAD_REQUEST : nat := 400.
Definition HTTP_403_FORBIDDEN : nat := 403.
Definition HTTP_404_NOT_FOUND : nat := 404.

(** What a request can die of: an [HTTPException] raised by a handler, the
    422 FastAPI answers when a declared parameter cannot be bound, and the
    exceptions that escape a handler uncaught. *)
Inductive Error : Type :=
| HTTPException (status_code : nat) (detail : string)
| RequestValidationError (loc : string)
| MultipleResultsFound
| IntegrityError
| ZeroDivisionError
| AttributeError (attr : string).

Inductive Result (A : Type) : Type :=
| Ok (a : A)
| Err (e : Error).
Arguments Ok {A} a.
Arguments Err {A} e.

Definition bind {A B : Type} (c : Result A) (k : A -> Result B) : Result B :=
  match c with
  | Ok a => k a
  | Err e => Err e
  end.

Notation "x <- c ;; k" := (bind c (fun x => k))
  (at level 61, c at next level, right associativity).

(** [Result.scalar_one_or_none()] of SQLAlchemy. *)
Definition scalar_one_or_none {A : Type} (rows : list A) : Result (option A) :=
  match rows with
  | [] => Ok None
  | [x] => Ok (Some x)
  | _ :: _ :: _ => Err MultipleResultsFound
  end.

(** ** Rows *)

Definition UUID : Type := N.
Definition DateTime : Type := Z.
Bind Scope N_scope with UUID.
Bind Scope Z_scope with DateTime.

#[local] Unset Elimination Schemes.
Inductive JSON : Type :=
| JNull
| JBool (b : bool)
| JInt (z : Z)
| JStr (s : string)
| JArr (l : list JSON)
| JObj (l : list (string * JSON)).
#[local] Set Elimination Schemes.

Inductive UserRole : Type := ADMIN | MANAGER | AGENT.

Module User.
Record t : Type := { id : UUID; name : string; role : UserRole }.
End User.

Module Meter.
Record t : Type := {
  id : UUID;
  serial_number : string;
  address : string
}.
End Meter.

Inductive AgentStatus : Type := AVAILABLE | BUSY | OFFLINE | ON_BREAK.

Definition AgentStatus_eqb (a b : AgentStatus) : bool :=
  match a, b with
  | AVAILABLE, AVAILABLE | BUSY, BUSY | OFFLINE, OFFLINE | ON_BREAK, ON_BREAK => true
  | _, _ => false
  end.

Module Agent.
Record t : Type := {
  id : UUID;
  user_id : UUID;
  current_load : Z;
  max_load : Z;
  status : AgentStatus
}.

Definition set_current_load (v : Z) (a : t) : t :=
  {| id := id a; user_id := user_id a; current_load := v;
     max_load := max_load a; status := status a |}.
End Agent.

Module AssignmentStatus.
Inductive t : Type := PENDING | IN_PROGRESS | COMPLETED | CANCELLED | OVERDUE.

Definition eqb (a b : t) : bool :=
  match a, b with
  | PENDING, PENDING | IN_PROGRESS, IN_PROGRESS | COMPLETED, COMPLETED
  | CANCELLED, CANCELLED | OVERDUE, OVERDUE => true
  | _, _ => false
  end.

(** The enum is a [str] enum; a member compares equal to its value. *)
Definition value (a : t) : string :=
  match a with
  | PENDING => "pending"
  | IN_PROGRESS => "in_progress"
  | COMPLETED => "completed"
  | CANCELLED => "cancelled"
  | OVERDUE => "overdue"
  end.
End AssignmentStatus.

Module MeterAssignment.
Record t : Type := {
  id : UUID;
  meter_id : UUID;
  agent_id : UUID;
  status : AssignmentStatus.t;
  estimated_time : option Z;
  assigned_at : option DateTime;
  completed_at : option DateTime;
  completion_notes : option string
}.

Definition set_status (v : AssignmentStatus.t) (a : t) : t :=
  {| id := id a; meter_id := meter_id a; agent_id := agent_id a; status := v;
     estimated_time := estimated_time a; assigned_at := assigned_at a;
     completed_at := completed_at a; completion_notes := completion_notes a |}.

Definition set_estimated_time (v : option Z) (a : t) : t :=
  {| id := id a; meter_id := meter_id a; agent_id := agent_id a; status := status a;
     estimated_time := v; assigned_at := assigned_at a;
     completed_at := completed_at a; completion_notes := completion_notes a |}.

Definition set_completed_at (v : option DateTime) (a : t) : t :=
  {| id := id a; meter_id := meter_id a; agent_id := agent_id a; status := status a;
     estimated_time := estimated_time a; assigned_at := assigned_at a;
     completed_at := v; completion_notes := completion_notes a |}.

Definition set_completion_notes (v : option string) (a : t) : t :=
  {| id := id a; meter_id := meter_id a; agent_id := agent_id a; status := status a;
     estimated_time := estimated_time a; assigned_at := assigned_at a;
     completed_at := completed_at a; completion_notes := v |}.
End MeterAssignment.

Module ApprovalStatus.
Inductive t : Type := PENDING | APPROVED | REJECTED | UNDER_REVIEW.

Definition eqb (a b : t) : bool :=
  match a, b with
  | PENDING, PENDING | APPROVED, APPROVED | REJECTED, REJECTED
  | UNDER_REVIEW, UNDER_REVIEW => true
  | _, _ => false
  end.
End ApprovalStatus.

Module MeterApprovalRequest.
Record t : Type := {
  id : UUID;
  meter_id : UUID;
  agent_id : UUID;
  reviewer_id : option UUID;
  meter_data : JSON;
  status : ApprovalStatus.t;
  submission_notes : option string;
  review_notes : option string;
  submitted_at : option DateTime;
  reviewed_at : option DateTime
}.

(** The four assignments [approve_request] and [reject_request] make. *)
Definition set_review (st : ApprovalStatus.t) (reviewer : UUID)
    (notes : option string) (at_ : DateTime) (r : t) : t :=
  {| id := id r; meter_id := meter_id r; agent_id := agent_id r;
     reviewer_id := Some reviewer; meter_data := meter_data r; status := st;
     submission_notes := submission_notes r; review_notes := notes;
     submitted_at := submitted_at r; reviewed_at := Some at_ |}.
End MeterApprovalRequest.

(** ** The database *)

Record DB : Type := {
  meters : list Meter.t;
  agents : list Agent.t;
  assignments : list MeterAssignment.t;
  approval_requests : list MeterApprovalRequest.t
}.

Definition with_meters (v : list Meter.t) (db : DB) : DB :=
  {| meters := v; agents := agents db; assignments := assignments db;
     approval_requests := approval_requests db |}.

Definition with_agents (v : list Agent.t) (db : DB) : DB :=
  {| meters := meters db; agents := v; assignments := assignments db;
     approval_requests := approval_requests db |}.

Definition with_assignments (v : list MeterAssignment.t) (db : DB) : DB :=
  {| meters := meters db; agents := agents db; assignments := v;
     approval_requests := approval_requests db |}.

Definition with_approval_requests (v : list MeterApprovalRequest.t) (db : DB) : DB :=
  {| meters := meters db; agents := agents db; assignments := assignments db;
     approval_requests := v |}.

(** A mutated ORM object is written back, at commit, to the row that has
    its primary key. *)
Definition flush_agent (a : Agent.t) (db : DB) : DB :=
  with_agents
    (map (fun r => if Agent.id r =? Agent.id a then a else r)%N (agents db)) db.

Definition flush_assignment (a : MeterAssignment.t) (db : DB) : DB :=
  with_assignments
    (map (fun r => if MeterAssignment.id r =? MeterAssignment.id a then a else r)%N
         (assignments db)) db.

Definition flush_request (a : MeterApprovalRequest.t) (db : DB) : DB :=
  with_approval_requests
    (map (fun r => if MeterApprovalRequest.id r =? MeterApprovalRequest.id a then a else r)%N
         (approval_requests db)) db.

(** [db.add(row)], up to the INSERT it becomes: [id] is the primary key of
    the table, so a row whose id is already there is refused. *)
Definition add_assignment (a : MeterAssignment.t) (db : DB) : Result DB :=
  if existsb (fun r => MeterAssignment.id r =? MeterAssignment.id a)%N (assignments db)
  then Err IntegrityError
  else Ok (with_assignments (assignments db ++ [a]) db).

(** [schemas/common.py]. *)
Record ResponseModel (T : Type) : Type := {
  success : bool;
  data : option T;
  message : option string
}.
Arguments success {T} r.
Arguments data {T} r.
Arguments message {T} r.

(** The database a request leaves behind. *)
Definition committed {A : Type} (db : DB) (r : Result (DB * A)) : DB :=
  match r with
  | Ok (db', _) => db'
  | Err _ => db
  end.

(** ** [approvals.py] *)

Definition request_by_id (request_id : UUID) (db : DB) : list MeterApprovalRequest.t :=
  filter (fun r => MeterApprovalRequest.id r =? request_id)%N (approval_requests db).

Definition approve_request (now : DateTime) (current_user : User.t)
    (request_id : UUID) (review_notes : option string) (db : DB)
    : Result (DB * ResponseModel unit) :=
  found <- scalar_one_or_none (request_by_id request_id db) ;;
  match found with
  | None => Err (HTTPException HTTP_404_NOT_FOUND "Approval request not found")
  | Some approval_request =>
      if negb (ApprovalStatus.eqb (MeterApprovalRequest.status approval_request)
                 ApprovalStatus.PENDING)
      then Err (HTTPException HTTP_400_BAD_REQUEST "Request is not pending approval")
      else
        let approval_request :=
          MeterApprovalRequest.set_review ApprovalStatus.APPROVED
            (User.id current_user) review_notes now approval_request in
        Ok (flush_request approval_request db,
            {| success := true; data := None;
               message := Some "Request approved successfully" |})
  end.

Definition reject_request (now : DateTime) (current_user : User.t)
    (request_id : UUID) (review_notes : string) (db : DB)
    : Result (DB * ResponseModel unit) :=
  found <- scalar_one_or_none (request_by_id request_id db) ;;
  match found with
  | None => Err (HTTPException HTTP_404_NOT_FOUND "Approval request not found")
  | Some approval_request =>
      if negb (ApprovalStatus.eqb (MeterApprovalRequest.status approval_request)
                 ApprovalStatus.PENDING)
      then Err (HTTPException HTTP_400_BAD_REQUEST "Request is not pending approval")
      else
        let approval_request :=
          MeterApprovalRequest.set_review ApprovalStatus.REJECTED
            (User.id current_user) (Some review_notes) now approval_request in
        Ok (flush_request approval_request db,
            {| success := true; data := None;
               message := Some "Request rejected successfully" |})
  end.

(** The two routes as FastAPI binds them: [approve_request] declares
    [review_notes: Optional[str] = None], [reject_request] declares
    [review_notes: str] with no default, so a reject call that carries no
    [review_notes] is answered 422 before the handler runs.  A present but
    empty string binds. *)
Inductive ReviewCall : Type :=
| PutApprove (review_notes : option string)
| PutReject (review_notes : option string).

Definition review (now : DateTime) (current_user : User.t) (request_id : UUID)
    (call : ReviewCall) (db : DB) : Result (DB * ResponseModel unit) :=
  match call with
  | PutApprove review_notes =>
      approve_request now current_user request_id review_notes db
  | PutReject None => Err (RequestValidationError "query.review_notes")
  | PutReject (Some review_notes) =>
      reject_request now current_user request_id review_notes db
  end.

(** ** [auth/dependencies.py] *)

Definition get_current_agent (current_user : User.t) (db : DB) : Result Agent.t :=
  match User.role current_user with
  | AGENT =>
      found <- scalar_one_or_none
                 (filter (fun a => Agent.user_id a =? User.id current_user)%N (agents db)) ;;
      match found with
      | None => Err (HTTPException HTTP_404_NOT_FOUND "Agent profile not found")
      | Some agent => Ok agent
      end
  | _ => Err (HTTPException HTTP_403_FORBIDDEN "User is not an agent")
  end.

(** ** [schemas/meter_assignment.py] *)

Module MeterAssignmentCreate.
Record t : Type := {
  estimated_time : option Z;
  meter_id : UUID;
  agent_id : UUID
}.
End MeterAssignmentCreate.

(** A field of the update schema is unset ([None]), set to null
    ([Some None]) or set to a value; [dict(exclude_unset=True)] keeps the
    last two. *)
Module MeterAssignmentUpdate.
Record t : Type := {
  status : option (option AssignmentStatus.t);
  estimated_time : option (option Z);
  completion_notes : option (option string)
}.

(** [assignment_update.status], the attribute. *)
Definition status_attr (u : t) : option AssignmentStatus.t :=
  match status u with
  | Some v => v
  | None => None
  end.
End MeterAssignmentUpdate.

Module BulkAssignmentRequest.
Record t : Type := {
  meter_ids : list UUID;
  agent_id : option UUID;
  estimated_time : option Z
}.
End BulkAssignmentRequest.

(** [str(uuid)]: 32 lower-case hexadecimal digits grouped 8-4-4-4-12. *)
Definition hex_digit (n : N) : string :=
  String.substring (N.to_nat (N.land n 15)) 1 "0123456789abcdef".

Fixpoint hex_digits (count : nat) (u : N) : string :=
  match count with
  | O => ""
  | S k => hex_digits k (N.shiftr u 4) ++ hex_digit u
  end.

Definition str_uuid (u : UUID) : string :=
  let h := hex_digits 32 u in
  String.substring 0 8 h ++ "-" ++ String.substring 8 4 h ++ "-" ++
  String.substring 12 4 h ++ "-" ++ String.substring 16 4 h ++ "-" ++
  String.substring 20 12 h.

(** [str(n)] for a count. *)
Definition str_nat (n : nat) : string := NilZero.string_of_uint (Nat.to_uint n).

Arguments hex_digits : simpl never.
Arguments str_uuid : simpl never.
Arguments str_nat : simpl never.

(** ** [assignments.py] *)

Definition meter_by_id (meter_id : UUID) (db : DB) : list Meter.t :=
  filter (fun m => Meter.id m =? meter_id)%N (meters db).

Definition agent_by_id (agent_id : UUID) (db : DB) : list Agent.t :=
  filter (fun a => Agent.id a =? agent_id)%N (agents db).

Definition assignment_by_id (assignment_id : UUID) (db : DB) : list MeterAssignment.t :=
  filter (fun a => MeterAssignment.id a =? assignment_id)%N (assignments db).

(** [MeterAssignment.status.in_([...])]. *)
Definition in_ (l : list AssignmentStatus.t) (s : AssignmentStatus.t) : bool :=
  existsb (AssignmentStatus.eqb s) l.

(** The "already assigned" query of [create_assignment] and [bulk_assign]. *)
Definition existing_assignment (meter_id : UUID) (db : DB) : list MeterAssignment.t :=
  filter (fun a => (MeterAssignment.meter_id a =? meter_id)%N &&
                   in_ [AssignmentStatus.PENDING; AssignmentStatus.IN_PROGRESS]
                       (MeterAssignment.status a))
         (assignments db).

Definition create_assignment (uuid4 : UUID) (now : DateTime)
    (assignment_data : MeterAssignmentCreate.t) (db : DB)
    : Result (DB * ResponseModel MeterAssignment.t) :=
  meter <- scalar_one_or_none
             (meter_by_id (MeterAssignmentCreate.meter_id assignment_data) db) ;;
  match meter with
  | None => Err (HTTPException HTTP_404_NOT_FOUND "Meter not found")
  | Some _ =>
  agent <- scalar_one_or_none
             (agent_by_id (MeterAssignmentCreate.agent_id assignment_data) db) ;;
  match agent with
  | None => Err (HTTPException HTTP_404_NOT_FOUND "Agent not found")
  | Some agent =>
  existing <- scalar_one_or_none
                (existing_assignment (MeterAssignmentCreate.meter_id assignment_data) db) ;;
  match existing with
  | Some _ => Err (HTTPException HTTP_400_BAD_REQUEST "Meter is already assigned")
  | None =>
      let new_assignment :=
        {| MeterAssignment.id := uuid4;
           MeterAssignment.meter_id := MeterAssignmentCreate.meter_id assignment_data;
           MeterAssignment.agent_id := MeterAssignmentCreate.agent_id assignment_data;
           MeterAssignment.status := AssignmentStatus.PENDING;
           MeterAssignment.estimated_time :=
             MeterAssignmentCreate.estimated_time assignment_data;
           MeterAssignment.assigned_at := Some now;
           MeterAssignment.completed_at := None;
           MeterAssignment.completion_notes := None |} in
      db <- add_assignment new_assignment db ;;
      let agent := Agent.set_current_load (Agent.current_load agent + 1) agent in
      Ok (flush_agent agent db,
          {| success := true; data := Some new_assignment;
             message := Some "Assignment created successfully" |})
  end end end.

(** First loop of [bulk_assign]. *)
Fixpoint verify_meters (meter_ids : list UUID) (db : DB) : Result unit :=
  match meter_ids with
  | [] => Ok tt
  | meter_id :: rest =>
      meter <- scalar_one_or_none (meter_by_id meter_id db) ;;
      match meter with
      | None => Err (HTTPException HTTP_404_NOT_FOUND
                       ("Meter " ++ str_uuid meter_id ++ " not found"))
      | Some _ => verify_meters rest db
      end
  end.

(** The agents [bulk_assign] draws from when no agent is named. *)
Definition available_agents (db : DB) : list Agent.t :=
  filter (fun a => AgentStatus_eqb (Agent.status a) AVAILABLE &&
                   (Agent.current_load a <? Agent.max_load a)%Z)
         (agents db).

(** Second loop of [bulk_assign].  The session autoflushes, so each query
    sees the rows added by the iterations before it.  [uuid4 k] is the id
    drawn for the row created when [assignments_created = k]. *)
Fixpoint bulk_assign_loop (bulk_data : BulkAssignmentRequest.t) (agents : list Agent.t)
    (uuid4 : nat -> UUID) (now : DateTime)
    (meter_ids : list UUID) (db : DB) (assignments_created : nat)
    : Result (DB * nat) :=
  match meter_ids with
  | [] => Ok (db, assignments_created)
  | meter_id :: rest =>
      existing <- scalar_one_or_none (existing_assignment meter_id db) ;;
      match existing with
      | Some _ => bulk_assign_loop bulk_data agents uuid4 now rest db assignments_created
      | None =>
          agent_id <-
            match BulkAssignmentRequest.agent_id bulk_data with
            | Some agent_id => Ok agent_id
            | None =>
                match nth_error agents (assignments_created mod List.length agents) with
                | Some agent => Ok (Agent.id agent)
                | None => Err ZeroDivisionError
                end
            end ;;
          let new_assignment :=
            {| MeterAssignment.id := uuid4 assignments_created;
               MeterAssignment.meter_id := meter_id;
               MeterAssignment.agent_id := agent_id;
               MeterAssignment.status := AssignmentStatus.PENDING;
               MeterAssignment.estimated_time :=
                 BulkAssignmentRequest.estimated_time bulk_data;
               MeterAssignment.assigned_at := Some now;
               MeterAssignment.completed_at := None;
               MeterAssignment.completion_notes := None |} in
          db <- add_assignment new_assignment db ;;
          bulk_assign_loop bulk_data agents uuid4 now rest db (S assignments_created)
      end
  end.

Definition bulk_assign (uuid4 : nat -> UUID) (now : DateTime)
    (bulk_data : BulkAssignmentRequest.t) (db : DB)
    : Result (DB * ResponseModel unit) :=
  _ <- verify_meters (BulkAssignmentRequest.meter_ids bulk_data) db ;;
  agents <-
    match BulkAssignmentRequest.agent_id bulk_data with
    | Some agent_id =>
        found <- scalar_one_or_none (agent_by_id agent_id db) ;;
        match found with
        | None => Err (HTTPException HTTP_404_NOT_FOUND "Agent not found")
        | Some _ => Ok []
        end
    | None =>
        match available_agents db with
        | [] => Err (HTTPException HTTP_400_BAD_REQUEST "No available agents found")
        | agents => Ok agents
        end
    end ;;
  done <- bulk_assign_loop bulk_data agents uuid4 now
            (BulkAssignmentRequest.meter_ids bulk_data) db 0 ;;
  let (db, assignments_created) := done in
  Ok (db,
      {| success := true; data := None;
         message := Some ("Successfully created " ++ str_nat assignments_created
                          ++ " assignments") |}).

(** The [setattr] loop of [update_assignment] over the fields that carry a
    value.  A null [status] is left to [db.commit()], where the column's
    [nullable=False] rejects it. *)
Definition setattr_update (u : MeterAssignmentUpdate.t) (a : MeterAssignment.t)
    : MeterAssignment.t :=
  let a := match MeterAssignmentUpdate.status u with
           | Some (Some v) => MeterAssignment.set_status v a
           | _ => a
           end in
  let a := match MeterAssignmentUpdate.estimated_time u with
           | Some v => MeterAssignment.set_estimated_time v a
           | None => a
           end in
  match MeterAssignmentUpdate.completion_notes u with
  | Some v => MeterAssignment.set_completion_notes v a
  | None => a
  end.

Definition is_COMPLETED (s : option AssignmentStatus.t) : bool :=
  match s with
  | Some AssignmentStatus.COMPLETED => true
  | _ => false
  end.

Definition is_unset {A : Type} (o : option A) : bool :=
  match o with
  | None => true
  | Some _ => false
  end.

Definition update_assignment (now : DateTime) (assignment_id : UUID)
    (assignment_update : MeterAssignmentUpdate.t) (db : DB)
    : Result (DB * ResponseModel MeterAssignment.t) :=
  found <- scalar_one_or_none (assignment_by_id assignment_id db) ;;
  match found with
  | None => Err (HTTPException HTTP_404_NOT_FOUND "Assignment not found")
  | Some assignment =>
      let assignment := setattr_update assignment_update assignment in
      step <-
        (if is_COMPLETED (MeterAssignmentUpdate.status_attr assignment_update)
            && is_unset (MeterAssignment.completed_at assignment)
         then
           let assignment := MeterAssignment.set_completed_at (Some now) assignment in
           agent <- scalar_one_or_none
                      (agent_by_id (MeterAssignment.agent_id assignment) db) ;;
           match agent with
           | Some agent =>
               if (0 <? Agent.current_load agent)%Z
               then Ok (assignment,
                        flush_agent
                          (Agent.set_current_load (Agent.current_load agent - 1) agent) db)
               else Ok (assignment, db)
           | None => Ok (assignment, db)
           end
         else Ok (assignment, db)) ;;
      let (assignment, db) := step in
      match MeterAssignmentUpdate.status assignment_update with
      | Some None => Err IntegrityError
      | _ =>
          Ok (flush_assignment assignment db,
              {| success := true; data := Some assignment;
                 message := Some "Assignment updated successfully" |})
      end
  end.

(** In [update_my_assignment_status] the parameter [status] hides the
    [fastapi.status] module, so the [status.HTTP_404_NOT_FOUND] of the
    not-found branch is an attribute lookup on the enum member. *)
Definition update_my_assignment_status (now : DateTime) (assignment_id : UUID)
    (status : AssignmentStatus.t) (completion_notes : option string)
    (current_agent : Agent.t) (db : DB)
    : Result (DB * ResponseModel unit) :=
  found <- scalar_one_or_none
             (filter (fun a => (MeterAssignment.id a =? assignment_id)%N &&
                               (MeterAssignment.agent_id a =? Agent.id current_agent)%N)
                     (assignments db)) ;;
  match found with
  | None => Err (AttributeError "HTTP_404_NOT_FOUND")
  | Some assignment =>
      let assignment := MeterAssignment.set_status status assignment in
      let (assignment, db) :=
        if AssignmentStatus.eqb status AssignmentStatus.COMPLETED
        then
          let assignment := MeterAssignment.set_completed_at (Some now) assignment in
          let assignment := MeterAssignment.set_completion_notes completion_notes assignment in
          if (0 <? Agent.current_load current_agent)%Z
          then (assignment,
                flush_agent
                  (Agent.set_current_load (Agent.current_load current_agent - 1)
                     current_agent) db)
          else (assignment, db)
        else (assignment, db) in
      Ok (flush_assignment assignment db,
          {| success := true; data := None;
             message := Some "Assignment status updated successfully" |})
  end.

(** The route: [current_agent] comes from the [get_current_agent]
    dependency, run on the same session. *)
Definition put_my_assignment_status (now : DateTime) (current_user : User.t)
    (assignment_id : UUID) (status : AssignmentStatus.t)
    (completion_notes : option string) (db : DB)
    : Result (DB * ResponseModel unit) :=
  current_agent <- get_current_agent current_user db ;;
  update_my_assignment_status now assignment_id status completion_notes current_agent db.

(** ** [meters.py] *)

(** The "active assignments" query of [delete_meter], which names the
    statuses by their values. *)
Definition active_assignments (meter_id : UUID) (db : DB) : list MeterAssignment.t :=
  filter (fun a => (MeterAssignment.meter_id a =? meter_id)%N &&
                   existsb (String.eqb (AssignmentStatus.value (MeterAssignment.status a)))
                           ["pending"; "in_progress"])
         (assignments db).

Definition delete_meter (meter_id : UUID) (db : DB) : Result (DB * ResponseModel unit) :=
  found <- scalar_one_or_none (meter_by_id meter_id db) ;;
  match found with
  | None => Err (HTTPException HTTP_404_NOT_FOUND "Meter not found")
  | Some meter =>
      match active_assignments meter_id db with
      | _ :: _ => Err (HTTPException HTTP_400_BAD_REQUEST
                         "Cannot delete meter with active assignments")
      | [] =>
          Ok (with_meters
                (filter (fun m => negb (Meter.id m =? Meter.id meter)%N) (meters db)) db,
              {| success := true; data := None;
                 message := Some "Meter deleted successfully" |})
      end
  end.

(** ** Sequences of operations of the assignment engine *)

Inductive Op : Type :=
| CreateAssignment (uuid4 : UUID) (now : DateTime)
    (assignment_data : MeterAssignmentCreate.t)
| BulkAssign (uuid4 : nat -> UUID) (now : DateTime)
    (bulk_data : BulkAssignmentRequest.t)
| UpdateAssignment (now : DateTime) (assignment_id : UUID)
    (assignment_update : MeterAssignmentUpdate.t)
| UpdateOwnAssignmentStatus (now : DateTime) (current_user : User.t)
    (assignment_id : UUID) (status : AssignmentStatus.t)
    (completion_notes : option string).

(** The database after one request: the committed one, or the old one when
    the request failed. *)
Definition step (db : DB) (op : Op) : DB :=
  match op with
  | CreateAssignment uuid4 now assignment_data =>
      committed db (create_assignment uuid4 now assignment_data db)
  | BulkAssign uuid4 now bulk_data =>
      committed db (bulk_assign uuid4 now bulk_data db)
  | UpdateAssignment now assignment_id assignment_update =>
      committed db (update_assignment now assignment_id assignment_update db)
  | UpdateOwnAssignmentStatus now current_user assignment_id status completion_notes =>
      committed db
        (put_my_assignment_status now current_user assignment_id status
           completion_notes db)
  end.

Definition run (db : DB) (ops : list Op) : DB := fold_left step ops db.

(** Active: pending or in progress. *)
Definition is_active (s : AssignmentStatus.t) : bool :=
  in_ [AssignmentStatus.PENDING; AssignmentStatus.IN_PROGRESS] s.

(** At most one active assignment references each meter. *)
Definition one_active_per_meter (db : DB) : Prop :=
  forall meter_id : UUID, (List.length (existing_assignment meter_id db) <= 1)%nat.

Definition one_active_per_meter_b (db : DB) : bool :=
  forallb (fun a => (List.length (existing_assignment (MeterAssignment.meter_id a) db)
                     <=? 1)%nat)
          (assignments db).

(** The primary keys of the two tables the engine writes. *)
Definition pk_unique (db : DB) : Prop :=
  NoDup (map MeterAssignment.id (assignments db)) /\
  NoDup (map Agent.id (agents db)).

(** The status an update request writes, and the row it names. *)
Definition written_status (op : Op) : option (UUID * AssignmentStatus.t) :=
  match op with
  | UpdateAssignment _ assignment_id assignment_update =>
      match MeterAssignmentUpdate.status_attr assignment_update with
      | Some s => Some (assignment_id, s)
      | None => None
      end
  | UpdateOwnAssignmentStatus _ _ assignment_id status _ => Some (assignment_id, status)
  | _ => None
  end.

(** An update reactivates when it writes pending or in-progress to a row
    that is neither. *)
Definition reactivates (db : DB) (op : Op) : bool :=
  match written_status op with
  | Some (assignment_id, s) =>
      is_active s &&
      existsb (fun a => negb (is_active (MeterAssignment.status a)))
              (assignment_by_id assignment_id db)
  | None => false
  end.

Fixpoint no_reactivation (db : DB) (ops : list Op) : bool :=
  match ops with
  | [] => true
  | op :: rest => negb (reactivates db op) && no_reactivation (step db op) rest
  end.

(** Whether the "already assigned" query finds a row. *)
Definition already_assigned (db : DB) (meter_id : UUID) : bool :=
  match existing_assignment meter_id db with
  | [] => false
  | _ :: _ => true
  end.

(** ** Sample data *)

Definition manager : User.t := {| User.id := 100%N; User.name := "Mo"; User.role := MANAGER |}.
Definition admin : User.t := {| User.id := 103%N; User.name := "Ad"; User.role := ADMIN |}.
Definition user_x : User.t := {| User.id := 101%N; User.name := "Xi"; User.role := AGENT |}.

Definition meter_A : Meter.t :=
  {| Meter.id := 1%N; Meter.serial_number := "SN-A"; Meter.address := "1 Main St" |}.
Definition meter_B : Meter.t :=
  {| Meter.id := 2%N; Meter.serial_number := "SN-B"; Meter.address := "2 Main St" |}.
Definition meter_C : Meter.t :=
  {| Meter.id := 3%N; Meter.serial_number := "SN-C"; Meter.address := "3 Main St" |}.

Definition agent_X (load : Z) : Agent.t :=
  {| Agent.id := 10%N; Agent.user_id := 101%N; Agent.current_load := load;
     Agent.max_load := 10; Agent.status := AVAILABLE |}.
Definition agent_Y (load : Z) : Agent.t :=
  {| Agent.id := 11%N; Agent.user_id := 102%N; Agent.current_load := load;
     Agent.max_load := 10; Agent.status := AVAILABLE |}.

Definition pending_request : MeterApprovalRequest.t :=
  {| MeterApprovalRequest.id := 50%N; MeterApprovalRequest.meter_id := 1%N;
     MeterApprovalRequest.agent_id := 10%N; MeterApprovalRequest.reviewer_id := None;
     MeterApprovalRequest.meter_data := JObj [("owner", JStr "Ada")];
     MeterApprovalRequest.status := ApprovalStatus.PENDING;
     MeterApprovalRequest.submission_notes := Some "owner changed";
     MeterApprovalRequest.review_notes := None;
     MeterApprovalRequest.submitted_at := Some 7%Z;
     MeterApprovalRequest.reviewed_at := None |}.

Definition db_review : DB :=
  {| meters := [meter_A]; agents := [agent_X 0]; assignments := [];
     approval_requests := [pending_request] |}.


Definition sample_assignment (id meter_id agent_id : UUID) (status : AssignmentStatus.t)
    (completed_at : option DateTime) : MeterAssignment.t :=
  {| MeterAssignment.id := id; MeterAssignment.meter_id := meter_id;
     MeterAssignment.agent_id := agent_id; MeterAssignment.status := status;
     MeterAssignment.estimated_time := Some 30%Z;
     MeterAssignment.assigned_at := Some 1%Z;
     MeterAssignment.completed_at := completed_at;
     MeterAssignment.completion_notes := None |}.

(** Meters A, B, C, agents X and Y with no load, nothing assigned. *)
Definition db_ABC : DB :=
  {| meters := [meter_A; meter_B; meter_C]; agents := [agent_X 0; agent_Y 0];
     assignments := []; approval_requests := [] |}.

(** As [db_ABC], with B already pending on X. *)
Definition db_B_pending : DB :=
  {| meters := [meter_A; meter_B; meter_C]; agents := [agent_X 1; agent_Y 0];
     assignments := [sample_assignment 21 2 10 AssignmentStatus.PENDING None];
     approval_requests := [] |}.

(** Meter A in progress on X, whose load is 2. *)
Definition db_in_progress : DB :=
  {| meters := [meter_A]; agents := [agent_X 2];
     assignments := [sample_assignment 20 1 10 AssignmentStatus.IN_PROGRESS None];
     approval_requests := [] |}.

(** Meter A with a completed assignment and a later pending one. *)
Definition db_reassigned : DB :=
  {| meters := [meter_A]; agents := [agent_X 1; agent_Y 0];
     assignments := [sample_assignment 20 1 11 AssignmentStatus.COMPLETED (Some 5%Z);
                     sample_assignment 21 1 10 AssignmentStatus.PENDING None];
     approval_requests := [] |}.

Definition set_status_to (s : AssignmentStatus.t) : MeterAssignmentUpdate.t :=
  {| MeterAssignmentUpdate.status := Some (Some s);
     MeterAssignmentUpdate.estimated_time := None;
     MeterAssignmentUpdate.completion_notes := None |}.

Definition uuid4_from (start : N) (k : nat) : UUID := (start + N.of_nat k)%N.

Definition bulk_request (meter_ids : list UUID) (agent_id : option UUID)
    : BulkAssignmentRequest.t :=
  {| BulkAssignmentRequest.meter_ids := meter_ids;
     BulkAssignmentRequest.agent_id := agent_id;
     BulkAssignmentRequest.estimated_time := None |}.

Definition create_request (meter_id agent_id : UUID) : MeterAssignmentCreate.t :=
  {| MeterAssignmentCreate.estimated_time := None;
     MeterAssignmentCreate.meter_id := meter_id;
     MeterAssignmentCreate.agent_id := agent_id |}.

Definition user_y : User.t := {| User.id := 102%N; User.name := "Yu"; User.role := AGENT |}.

(** A day of requests on [db_ABC]: A is assigned to X, a batch covers A, B
    and C, X starts and completes A, and A is then assigned to Y. *)
Definition sample_day : list Op :=
  [CreateAssignment 30 2 (create_request 1 10);
   BulkAssign (uuid4_from 40) 3 (bulk_request [1; 2; 3]%N None);
   UpdateAssignment 4 30 (set_status_to AssignmentStatus.IN_PROGRESS);
   UpdateOwnAssignmentStatus 5 user_x 30 AssignmentStatus.COMPLETED (Some "read");
   CreateAssignment 50 6 (create_request 1 11)].

(** ** Vocabulary of the statements *)

(** Rows of a table by primary key, and the write-back of a row. *)
Definition by_key {A : Type} (key : A -> N) (k : N) (l : list A) : list A :=
  filter (fun r => key r =? k)%N l.

Definition replace_row {A : Type} (key : A -> N) (x : A) (l : list A) : list A :=
  map (fun r => if (key r =? key x)%N then x else r) l.

(** What a review may not touch in a request row, and which rows it may
    touch at all. *)
Definition review_frame (request_id : UUID) (old new : MeterApprovalRequest.t) : Prop :=
  MeterApprovalRequest.id new = MeterApprovalRequest.id old /\
  MeterApprovalRequest.meter_id new = MeterApprovalRequest.meter_id old /\
  MeterApprovalRequest.agent_id new = MeterApprovalRequest.agent_id old /\
  MeterApprovalRequest.meter_data new = MeterApprovalRequest.meter_data old /\
  MeterApprovalRequest.submission_notes new = MeterApprovalRequest.submission_notes old /\
  MeterApprovalRequest.submitted_at new = MeterApprovalRequest.submitted_at old /\
  (MeterApprovalRequest.id old <> request_id -> new = old).

(** The row [bulk_assign] creates when its counter reads [i]: pending, with
    the [i]-th id drawn, for the named agent or else for the agent at
    position [i mod n] of the list drawn from. *)
Definition created_at_count (bulk_data : BulkAssignmentRequest.t) (agents : list Agent.t)
    (uuid4 : nat -> UUID) (i : nat) (a : MeterAssignment.t) : Prop :=
  MeterAssignment.status a = AssignmentStatus.PENDING /\
  MeterAssignment.id a = uuid4 i /\
  MeterAssignment.completed_at a = None /\
  match BulkAssignmentRequest.agent_id bulk_data with
  | Some agent_id => MeterAssignment.agent_id a = agent_id
  | None =>
      exists agent, nth_error agents (i mod List.length agents) = Some agent /\
                    MeterAssignment.agent_id a = Agent.id agent
  end.

(** How many of the rows are for a meter. *)
Definition count_for (meter_id : UUID) (rows : list MeterAssignment.t) : nat :=
  List.length (filter (fun a => MeterAssignment.meter_id a =? meter_id)%N rows).

(** ** [auth/dependencies.py]: the role guards *)

Definition UserRole_eqb (a b : UserRole) : bool :=
  match a, b with
  | ADMIN, ADMIN | MANAGER, MANAGER | AGENT, AGENT => true
  | _, _ => false
  end.

Definition UserRole_value (r : UserRole) : string :=
  match r with
  | ADMIN => "admin"
  | MANAGER => "manager"
  | AGENT => "agent"
  end.

Definition require_role (required_role : UserRole) (current_user : User.t)
    : Result User.t :=
  if negb (UserRole_eqb (User.role current_user) required_role) &&
     negb (UserRole_eqb (User.role current_user) ADMIN)
  then Err (HTTPException HTTP_403_FORBIDDEN
              ("Access denied. Required role: " ++ UserRole_value required_role))
  else Ok current_user.

Definition require_admin (current_user : User.t) : Result User.t :=
  if negb (UserRole_eqb (User.role current_user) ADMIN)
  then Err (HTTPException HTTP_403_FORBIDDEN "Access denied. Admin role required")
  else Ok current_user.

Definition require_manager_or_admin (current_user : User.t) : Result User.t :=
  if negb (existsb (UserRole_eqb (User.role current_user)) [MANAGER; ADMIN])
  then Err (HTTPException HTTP_403_FORBIDDEN
              "Access denied. Manager or admin role required")
  else Ok current_user.

(** ** [approvals.py]: submitting and reading a request *)

Module MeterApprovalRequestCreate.
Record t : Type := {
  submission_notes : option string;
  meter_id : UUID;
  meter_data : JSON
}.
End MeterApprovalRequestCreate.

(** [db.add(row)] for the requests table, whose primary key is [id]. *)
Definition add_request (r : MeterApprovalRequest.t) (db : DB) : Result DB :=
  if existsb (fun x => MeterApprovalRequest.id x =? MeterApprovalRequest.id r)%N
             (approval_requests db)
  then Err IntegrityError
  else Ok (with_approval_requests (approval_requests db ++ [r]) db).

Definition create_approval_request (uuid4 : UUID) (now : DateTime)
    (request_data : MeterApprovalRequestCreate.t) (current_agent : Agent.t) (db : DB)
    : Result (DB * ResponseModel MeterApprovalRequest.t) :=
  meter <- scalar_one_or_none
             (meter_by_id (MeterApprovalRequestCreate.meter_id request_data) db) ;;
  match meter with
  | None => Err (HTTPException HTTP_404_NOT_FOUND "Meter not found")
  | Some _ =>
      let new_request :=
        {| MeterApprovalRequest.id := uuid4;
           MeterApprovalRequest.meter_id :=
             MeterApprovalRequestCreate.meter_id request_data;
           MeterApprovalRequest.agent_id := Agent.id current_agent;
           MeterApprovalRequest.reviewer_id := None;
           MeterApprovalRequest.meter_data :=
             MeterApprovalRequestCreate.meter_data request_data;
           MeterApprovalRequest.status := ApprovalStatus.PENDING;
           MeterApprovalRequest.submission_notes :=
             MeterApprovalRequestCreate.submission_notes request_data;
           MeterApprovalRequest.review_notes := None;
           MeterApprovalRequest.submitted_at := Some now;
           MeterApprovalRequest.reviewed_at := None |} in
      db <- add_request new_request db ;;
      Ok (db,
          {| success := true; data := Some new_request;
             message := Some "Approval request submitted successfully" |})
  end.

(** The route: the submitting agent is the caller's agent profile. *)
Definition post_approval_request (uuid4 : UUID) (now : DateTime)
    (current_user : User.t) (request_data : MeterApprovalRequestCreate.t) (db : DB)
    : Result (DB * ResponseModel MeterApprovalRequest.t) :=
  current_agent <- get_current_agent current_user db ;;
  create_approval_request uuid4 now request_data current_agent db.

Definition get_approval_request (request_id : UUID) (db : DB)
    : Result (ResponseModel MeterApprovalRequest.t) :=
  found <- scalar_one_or_none (request_by_id request_id db) ;;
  match found with
  | None => Err (HTTPException HTTP_404_NOT_FOUND "Approval request not found")
  | Some approval_request =>
      Ok {| success := true; data := Some approval_request; message := None |}
  end.

(** ** [meters.py]: reading a meter *)

Definition get_meter (meter_id : UUID) (db : DB) : Result (ResponseModel Meter.t) :=
  found <- scalar_one_or_none (meter_by_id meter_id db) ;;
  match found with
  | None => Err (HTTPException HTTP_404_NOT_FOUND "Meter not found")
  | Some meter => Ok {| success := true; data := Some meter; message := None |}
  end.

(** ** [agents.py]: availability *)

(** [get_available_agents]: the rows of the agents that are available and
    below their max load, as [bulk_assign] selects them. *)
Definition get_available_agents (db : DB) : Result (ResponseModel (list Agent.t)) :=
  let agents :=
    filter (fun a => AgentStatus_eqb (Agent.status a) AVAILABLE &&
                     (Agent.current_load a <? Agent.max_load a)%Z)
           (agents db) in
  Ok {| success := true; data := Some agents; message := None |}.

Definition agent_with_status (v : AgentStatus) (a : Agent.t) : Agent.t :=
  {| Agent.id := Agent.id a; Agent.user_id := Agent.user_id a;
     Agent.current_load := Agent.current_load a; Agent.max_load := Agent.max_load a;
     Agent.status := v |}.

Definition update_my_status (status : AgentStatus) (current_agent : Agent.t) (db : DB)
    : Result (DB * ResponseModel unit) :=
  let current_agent := agent_with_status status current_agent in
  Ok (flush_agent current_agent db,
      {| success := true; data := None;
         message := Some "Status updated successfully" |}).

Definition put_my_status (current_user : User.t) (status : AgentStatus) (db : DB)
    : Result (DB * ResponseModel unit) :=
  current_agent <- get_current_agent current_user db ;;
  update_my_status status current_agent db.

(** ** Pagination, as every listing handler computes it *)

Module PaginationParams.
Record t : Type := { page : Z; limit : Z }.
End PaginationParams.

(** [pages], [has_next] and [has_prev] from the total. *)
Definition pages_of (total : Z) (pagination : PaginationParams.t) : Z :=
  ((total + PaginationParams.limit pagination - 1) / PaginationParams.limit pagination)%Z.

Definition has_next (total : Z) (pagination : PaginationParams.t) : bool :=
  (PaginationParams.page pagination <? pages_of total pagination)%Z.

Definition has_prev (pagination : PaginationParams.t) : bool :=
  (1 <? PaginationParams.page pagination)%Z.

(** [.offset((page - 1) * limit).limit(limit)] on the rows of a query. *)
Definition offset_limit {A : Type} (pagination : PaginationParams.t) (rows : list A)
    : list A :=
  firstn (Z.to_nat (PaginationParams.limit pagination))
         (skipn (Z.to_nat ((PaginationParams.page pagination - 1) *
                           PaginationParams.limit pagination))
                rows).

(** ** Vocabulary of the further statements *)

(** The first requested meter that has no row. *)
Definition first_unknown_meter (meter_ids : list UUID) (db : DB) : option UUID :=
  find (fun m => match meter_by_id m db with [] => true | _ => false end) meter_ids.

(** How many of the rows are for an agent. *)
Definition count_of_agent (agent_id : UUID) (rows : list MeterAssignment.t) : nat :=
  List.length (filter (fun a => MeterAssignment.agent_id a =? agent_id)%N rows).

(** What an update may not touch in an assignment row, and which rows it
    may touch at all. *)
Definition update_frame (assignment_id : UUID) (old new : MeterAssignment.t) : Prop :=
  MeterAssignment.id new = MeterAssignment.id old /\
  MeterAssignment.meter_id new = MeterAssignment.meter_id old /\
  MeterAssignment.agent_id new = MeterAssignment.agent_id old /\
  MeterAssignment.assigned_at new = MeterAssignment.assigned_at old /\
  (MeterAssignment.id old <> assignment_id -> new = old).

Definition loads_nonnegative (db : DB) : Prop :=
  Forall (fun a => (0 <= Agent.current_load a)%Z) (agents db).

Definition sample_submission : MeterApprovalRequestCreate.t :=
  {| MeterApprovalRequestCreate.submission_notes := Some "dial replaced";
     MeterApprovalRequestCreate.meter_id := 1%N;
     MeterApprovalRequestCreate.meter_data := JObj [("meter_type", JStr "digital")] |}.

Definition sample_assignment_created (id meter_id agent_id : UUID) (now : DateTime)
    : MeterAssignment.t :=
  {| MeterAssignment.id := id; MeterAssignment.meter_id := meter_id;
     MeterAssignment.agent_id := agent_id;
     MeterAssignment.status := AssignmentStatus.PENDING;
     MeterAssignment.estimated_time := None;
     MeterAssignment.assigned_at := Some now;
     MeterAssignment.completed_at := None;
     MeterAssignment.completion_notes := None |}.

(** Nobody available: X is offline, Y is at its max load. *)
Definition db_nobody : DB :=
  {| meters := [meter_A; meter_B];
     agents := [agent_with_status OFFLINE (agent_X 0); agent_Y 10];
     assignments := [sample_assignment 21 2 10 AssignmentStatus.PENDING None];
     approval_requests := [] |}.

(** What [sample_submission] becomes when X submits it with id 51 at time 8. *)
Definition sample_submitted : MeterApprovalRequest.t :=
  {| MeterApprovalRequest.id := 51%N; MeterApprovalRequest.meter_id := 1%N;
     MeterApprovalRequest.agent_id := 10%N; MeterApprovalRequest.reviewer_id := None;
     MeterApprovalRequest.meter_data := JObj [("meter_type", JStr "digital")];
     MeterApprovalRequest.status := ApprovalStatus.PENDING;
     MeterApprovalRequest.submission_notes := Some "dial replaced";
     MeterApprovalRequest.review_notes := None;
     MeterApprovalRequest.submitted_at := Some 8%Z;
     MeterApprovalRequest.reviewed_at := None |}.

Definition request_under_review : MeterApprovalRequest.t :=
  {| MeterApprovalRequest.id := 50%N; MeterApprovalRequest.meter_id := 1%N;
     MeterApprovalRequest.agent_id := 10%N; MeterApprovalRequest.reviewer_id := None;
     MeterApprovalRequest.meter_data := JObj [("owner", JStr "Ada")];
     MeterApprovalRequest.status := ApprovalStatus.UNDER_REVIEW;
     MeterApprovalRequest.submission_notes := None;
     MeterApprovalRequest.review_notes := None;
     MeterApprovalRequest.submitted_at := Some 7%Z;
     MeterApprovalRequest.reviewed_at := None |}.

Definition db_under_review : DB :=
  {| meters := [meter_A]; agents := [agent_X 0]; assignments := [];
     approval_requests := [request_under_review] |}.

(** Y one below its max load. *)
Definition db_Y_nearly_full : DB :=
  {| meters := [meter_A]; agents := [agent_X 0; agent_Y 9];
     assignments := []; approval_requests := [] |}.
(** ** Tables and primary keys *)

Section Keyed.
Variable A : Type.
Variable key : A -> N.

Lemma by_key_replace_row (x : A) (k : N) (l : list A) :
  by_key key k (replace_row key x l) =
  if (key x =? k)%N then map (fun _ => x) (by_key key k l) else by_key key k l.
Proof.
  unfold by_key, replace_row.
  induction l as [|r l IH]; simpl.
  - now destruct (key x =? k)%N.
  - destruct (key r =? key x)%N eqn:Erx.
    + apply N.eqb_eq in Erx. rewrite Erx, IH.
      destruct (key x =? k)%N; simpl; reflexivity.
    + rewrite IH. destruct (key x =? k)%N eqn:Exk; simpl.
      * destruct (key r =? k)%N eqn:Erk; simpl; [|reflexivity].
        apply N.eqb_eq in Exk, Erk. apply N.eqb_neq in Erx. congruence.
      * destruct (key r =? k)%N; simpl; reflexivity.
Qed.

Lemma by_key_In (k : N) (l : list A) (r : A) :
  In r (by_key key k l) <-> In r l /\ key r = k.
Proof.
  unfold by_key. rewrite filter_In, N.eqb_eq. tauto.
Qed.

Lemma by_key_absent (k : N) (l : list A) :
  ~ In k (map key l) -> by_key key k l = [].
Proof.
  unfold by_key. induction l as [|r l IH]; simpl; intros H; [reflexivity|].
  destruct (key r =? k)%N eqn:E.
  - apply N.eqb_eq in E. tauto.
  - apply IH. tauto.
Qed.

(** Under a primary key a lookup finds at most one row. *)
Lemma by_key_NoDup (k : N) (l : list A) :
  NoDup (map key l) -> by_key key k l = [] \/ exists r, by_key key k l = [r].
Proof.
  induction l as [|r l IH]; simpl; intros H; [now left|].
  inversion H as [|? ? Hnin Hnd]; subst.
  unfold by_key in *. simpl.
  destruct (key r =? k)%N eqn:E.
  - right. exists r. apply N.eqb_eq in E. subst k.
    f_equal. now apply by_key_absent.
  - now apply IH.
Qed.

Lemma by_key_single (k : N) (l : list A) (r : A) :
  NoDup (map key l) -> In r l -> key r = k -> by_key key k l = [r].
Proof.
  intros Hnd Hin Hk.
  destruct (by_key_NoDup k l Hnd) as [E|[r' E]].
  - assert (In r (by_key key k l)) as H by (apply by_key_In; tauto).
    rewrite E in H. destruct H.
  - assert (In r (by_key key k l)) as H by (apply by_key_In; tauto).
    rewrite E in H. destruct H as [->|[]]. exact E.
Qed.

Lemma map_key_replace_row (x : A) (l : list A) :
  map key (replace_row key x l) = map key l.
Proof.
  unfold replace_row. rewrite map_map. apply map_ext. intros r.
  destruct (key r =? key x)%N eqn:E; [|reflexivity].
  apply N.eqb_eq in E. congruence.
Qed.
End Keyed.

Lemma scalar_one_or_none_Some {A : Type} (rows : list A) (x : A) :
  scalar_one_or_none rows = Ok (Some x) <-> rows = [x].
Proof.
  destruct rows as [|y [|z rows]]; simpl; split; intros H; try discriminate; congruence.
Qed.

Lemma scalar_one_or_none_None {A : Type} (rows : list A) :
  scalar_one_or_none rows = Ok None <-> rows = [].
Proof.
  destruct rows as [|y [|z rows]]; simpl; split; intros H; try discriminate; congruence.
Qed.

(** ** Approval workflow *)

Lemma ApprovalStatus_eqb_eq (a b : ApprovalStatus.t) :
  ApprovalStatus.eqb a b = true <-> a = b.
Proof. destruct a, b; simpl; split; intros H; try discriminate; reflexivity. Qed.

(** What a successful approve did: the request was the only row with that
    id, it was pending, and the committed database is the old one with the
    reviewed row written back. *)
Lemma approve_request_Ok now current_user request_id review_notes db db' resp :
  approve_request now current_user request_id review_notes db = Ok (db', resp) ->
  exists r,
    request_by_id request_id db = [r] /\
    MeterApprovalRequest.status r = ApprovalStatus.PENDING /\
    db' = flush_request
            (MeterApprovalRequest.set_review ApprovalStatus.APPROVED
               (User.id current_user) review_notes now r) db.
Proof.
  unfold approve_request. intros H.
  destruct (request_by_id request_id db) as [|r [|r' rows]]; simpl in H; try discriminate.
  destruct (ApprovalStatus.eqb (MeterApprovalRequest.status r) ApprovalStatus.PENDING)
    eqn:E; simpl in H; try discriminate.
  exists r. apply ApprovalStatus_eqb_eq in E. inversion H. auto.
Qed.

Lemma reject_request_Ok now current_user request_id review_notes db db' resp :
  reject_request now current_user request_id review_notes db = Ok (db', resp) ->
  exists r,
    request_by_id request_id db = [r] /\
    MeterApprovalRequest.status r = ApprovalStatus.PENDING /\
    db' = flush_request
            (MeterApprovalRequest.set_review ApprovalStatus.REJECTED
               (User.id current_user) (Some review_notes) now r) db.
Proof.
  unfold reject_request. intros H.
  destruct (request_by_id request_id db) as [|r [|r' rows]]; simpl in H; try discriminate.
  destruct (ApprovalStatus.eqb (MeterApprovalRequest.status r) ApprovalStatus.PENDING)
    eqn:E; simpl in H; try discriminate.
  exists r. apply ApprovalStatus_eqb_eq in E. inversion H. auto.
Qed.

Lemma request_by_id_flush request_id r x db :
  request_by_id request_id db = [r] ->
  MeterApprovalRequest.id x = MeterApprovalRequest.id r ->
  request_by_id request_id (flush_request x db) = [x].
Proof.
  intros Hr Hid.
  assert (MeterApprovalRequest.id r = request_id) as Hk.
  { assert (In r (request_by_id request_id db)) as Hin by (rewrite Hr; now left).
    apply (by_key_In _ MeterApprovalRequest.id) in Hin. tauto. }
  unfold request_by_id, flush_request in *. simpl.
  change (by_key MeterApprovalRequest.id request_id
            (replace_row MeterApprovalRequest.id x (approval_requests db)) = [x]).
  rewrite by_key_replace_row.
  rewrite Hid, Hk, N.eqb_refl.
  unfold by_key. rewrite Hr. reflexivity.
Qed.

(** After a successful review the request is the only row with its id and
    is no longer pending. *)
Lemma reviewed_not_pending (outcome : ApprovalStatus.t) reviewer notes now request_id r db :
  request_by_id request_id db = [r] ->
  outcome <> ApprovalStatus.PENDING ->
  forall now' current_user' db1,
    db1 = flush_request (MeterApprovalRequest.set_review outcome reviewer notes now r) db ->
    (forall review_notes',
        approve_request now' current_user' request_id review_notes' db1 =
        Err (HTTPException HTTP_400_BAD_REQUEST "Request is not pending approval")) /\
    (forall review_notes',
        reject_request now' current_user' request_id review_notes' db1 =
        Err (HTTPException HTTP_400_BAD_REQUEST "Request is not pending approval")).
Proof.
  intros Hr Hout now' current_user' db1 ->.
  pose proof (request_by_id_flush request_id r
                (MeterApprovalRequest.set_review outcome reviewer notes now r) db Hr
                eq_refl) as Hx.
  split; intros review_notes'.
  - unfold approve_request. rewrite Hx. simpl.
    destruct outcome; simpl; try reflexivity. congruence.
  - unfold reject_request. rewrite Hx. simpl.
    destruct outcome; simpl; try reflexivity. congruence.
Qed.

(** C2. A review (approve or reject) succeeds only on a pending request;
    once one has succeeded, every further approve or reject of the same
    request fails with 400 "Request is not pending approval" (the spec's
    InvalidState) and commits nothing, so the request keeps its status,
    reviewer and review notes. *)
Theorem review_is_one_shot :
  forall now current_user request_id notes_a notes_r db db1 resp,
    approve_request now current_user request_id notes_a db = Ok (db1, resp) \/
    reject_request now current_user request_id notes_r db = Ok (db1, resp) ->
    (exists r, request_by_id request_id db = [r] /\
               MeterApprovalRequest.status r = ApprovalStatus.PENDING) /\
    forall now' current_user' notes_a' notes_r',
      approve_request now' current_user' request_id notes_a' db1 =
        Err (HTTPException HTTP_400_BAD_REQUEST "Request is not pending approval") /\
      reject_request now' current_user' request_id notes_r' db1 =
        Err (HTTPException HTTP_400_BAD_REQUEST "Request is not pending approval") /\
      committed db1 (approve_request now' current_user' request_id notes_a' db1) = db1 /\
      committed db1 (reject_request now' current_user' request_id notes_r' db1) = db1.
Proof.
  intros now current_user request_id notes_a notes_r db db1 resp [H|H].
  - apply approve_request_Ok in H. destruct H as (r & Hr & Hp & Hdb).
    split; [exists r; auto|].
    intros now' current_user' notes_a' notes_r'.
    destruct (reviewed_not_pending ApprovalStatus.APPROVED (User.id current_user) notes_a
                now request_id r db Hr ltac:(discriminate) now' current_user' db1 Hdb)
      as [Ha Hj].
    rewrite Ha, Hj. simpl. auto.
  - apply reject_request_Ok in H. destruct H as (r & Hr & Hp & Hdb).
    split; [exists r; auto|].
    intros now' current_user' notes_a' notes_r'.
    destruct (reviewed_not_pending ApprovalStatus.REJECTED (User.id current_user)
                (Some notes_r) now request_id r db Hr ltac:(discriminate)
                now' current_user' db1 Hdb)
      as [Ha Hj].
    rewrite Ha, Hj. simpl. auto.
Qed.

Lemma review_is_one_shot_witness :
  (exists r, request_by_id 50 db_review = [r] /\
             MeterApprovalRequest.status r = ApprovalStatus.PENDING) /\
  forall now' current_user' notes_a' notes_r',
    approve_request now' current_user' 50 notes_a'
      (committed db_review (approve_request 9 manager 50 None db_review)) =
      Err (HTTPException HTTP_400_BAD_REQUEST "Request is not pending approval") /\
    reject_request now' current_user' 50 notes_r'
      (committed db_review (approve_request 9 manager 50 None db_review)) =
      Err (HTTPException HTTP_400_BAD_REQUEST "Request is not pending approval") /\
    committed (committed db_review (approve_request 9 manager 50 None db_review))
      (approve_request now' current_user' 50 notes_a'
         (committed db_review (approve_request 9 manager 50 None db_review))) =
      committed db_review (approve_request 9 manager 50 None db_review) /\
    committed (committed db_review (approve_request 9 manager 50 None db_review))
      (reject_request now' current_user' 50 notes_r'
         (committed db_review (approve_request 9 manager 50 None db_review))) =
      committed db_review (approve_request 9 manager 50 None db_review).
Proof.
  apply (review_is_one_shot 9%Z manager 50%N None ""%string db_review
           (committed db_review (approve_request 9 manager 50 None db_review))
           {| success := true; data := None;
              message := Some "Request approved successfully" |}).
  left. reflexivity.
Defined.

(** C7, as stated, fails: a reject whose [review_notes] is the empty string
    is not refused.  On a pending request it succeeds and the request ends
    up rejected, not pending. *)
Lemma reject_empty_notes_accepted :
  (forall e, review 9 manager 50 (PutReject (Some "")) db_review <> Err e) /\
  map MeterApprovalRequest.status
      (request_by_id 50
         (committed db_review (review 9 manager 50 (PutReject (Some "")) db_review))) =
  [ApprovalStatus.REJECTED].
Proof.
  split.
  - intros e. vm_compute. discriminate.
  - vm_compute. reflexivity.
Qed.

(** C7, amended.  Rejecting requires [review_notes] to be supplied, and
    approving does not: on a pending request a reject call without
    [review_notes] fails with a validation error and leaves the request as
    it was, an approve call without them succeeds.  Supplied notes are not
    checked for emptiness: a reject with any string, the empty one
    included, succeeds, marks the request rejected and stores the notes. *)
Theorem reject_requires_notes_supplied :
  forall now current_user request_id db r,
    request_by_id request_id db = [r] ->
    MeterApprovalRequest.status r = ApprovalStatus.PENDING ->
    review now current_user request_id (PutReject None) db =
      Err (RequestValidationError "query.review_notes") /\
    committed db (review now current_user request_id (PutReject None) db) = db /\
    (forall notes, exists db' resp,
        review now current_user request_id (PutReject (Some notes)) db = Ok (db', resp) /\
        request_by_id request_id db' =
          [MeterApprovalRequest.set_review ApprovalStatus.REJECTED (User.id current_user)
             (Some notes) now r]) /\
    (exists db' resp,
        review now current_user request_id (PutApprove None) db = Ok (db', resp) /\
        request_by_id request_id db' =
          [MeterApprovalRequest.set_review ApprovalStatus.APPROVED (User.id current_user)
             None now r]).
Proof.
  intros now current_user request_id db r Hr Hp.
  split; [reflexivity|]. split; [reflexivity|]. split.
  - intros notes. simpl. unfold reject_request. rewrite Hr. simpl. rewrite Hp. simpl.
    eexists. eexists. split; [reflexivity|].
    apply (request_by_id_flush request_id r); auto.
  - simpl. unfold approve_request. rewrite Hr. simpl. rewrite Hp. simpl.
    eexists. eexists. split; [reflexivity|].
    apply (request_by_id_flush request_id r); auto.
Qed.

Lemma reject_requires_notes_supplied_witness :
  review 9 manager 50 (PutReject None) db_review =
    Err (RequestValidationError "query.review_notes") /\
  committed db_review (review 9 manager 50 (PutReject None) db_review) = db_review /\
  (forall notes, exists db' resp,
      review 9 manager 50 (PutReject (Some notes)) db_review = Ok (db', resp) /\
      request_by_id 50 db' =
        [MeterApprovalRequest.set_review ApprovalStatus.REJECTED (User.id manager)
           (Some notes) 9 pending_request]) /\
  (exists db' resp,
      review 9 manager 50 (PutApprove None) db_review = Ok (db', resp) /\
      request_by_id 50 db' =
        [MeterApprovalRequest.set_review ApprovalStatus.APPROVED (User.id manager)
           None 9 pending_request]).
Proof.
  apply (reject_requires_notes_supplied 9%Z manager 50%N db_review pending_request);
    reflexivity.
Defined.

Lemma Forall2_map_self {A : Type} (P : A -> A -> Prop) (f : A -> A) (l : list A) :
  (forall a, In a l -> P a (f a)) -> Forall2 P l (map f l).
Proof.
  induction l as [|a l IH]; simpl; intros H; constructor.
  - apply H. now left.
  - apply IH. intros b Hb. apply H. now right.
Qed.

Lemma flush_request_frame request_id r x db :
  request_by_id request_id db = [r] ->
  review_frame request_id r x ->
  Forall2 (review_frame request_id) (approval_requests db)
          (approval_requests (flush_request x db)).
Proof.
  intros Hr Hx. unfold flush_request. simpl.
  apply Forall2_map_self. intros a Ha.
  assert (MeterApprovalRequest.id r = request_id) as Hk.
  { assert (In r (request_by_id request_id db)) as Hin by (rewrite Hr; now left).
    apply (by_key_In _ MeterApprovalRequest.id) in Hin. tauto. }
  destruct Hx as (Hid & Hx).
  destruct (MeterApprovalRequest.id a =? MeterApprovalRequest.id x)%N eqn:E.
  - apply N.eqb_eq in E.
    assert (In a (request_by_id request_id db)) as Hin.
    { apply (by_key_In _ MeterApprovalRequest.id). split; congruence. }
    rewrite Hr in Hin. destruct Hin as [<-|[]].
    split; [exact Hid|]. exact Hx.
  - unfold review_frame. repeat split; reflexivity.
Qed.

(** C10. A successful approve or reject leaves the meters, agents and
    assignments tables as they were, leaves every other approval request
    as it was, and in the reviewed request changes nothing but status,
    reviewer_id, review_notes and reviewed_at: its id, meter_id, agent_id,
    meter_data, submission_notes and submitted_at are kept. *)
Theorem review_mutates_only_review_fields :
  forall now current_user request_id call db db' resp,
    review now current_user request_id call db = Ok (db', resp) ->
    meters db' = meters db /\
    agents db' = agents db /\
    assignments db' = assignments db /\
    Forall2 (review_frame request_id) (approval_requests db) (approval_requests db').
Proof.
  intros now current_user request_id call db db' resp H.
  destruct call as [notes|[notes|]]; simpl in H; try discriminate.
  - apply approve_request_Ok in H. destruct H as (r & Hr & _ & ->).
    repeat split; try reflexivity.
    apply (flush_request_frame request_id r); auto.
    unfold review_frame. simpl. repeat split; try reflexivity.
    intros Hne. exfalso. apply Hne.
    assert (In r (request_by_id request_id db)) as Hin by (rewrite Hr; now left).
    apply (by_key_In _ MeterApprovalRequest.id) in Hin. tauto.
  - apply reject_request_Ok in H. destruct H as (r & Hr & _ & ->).
    repeat split; try reflexivity.
    apply (flush_request_frame request_id r); auto.
    unfold review_frame. simpl. repeat split; try reflexivity.
    intros Hne. exfalso. apply Hne.
    assert (In r (request_by_id request_id db)) as Hin by (rewrite Hr; now left).
    apply (by_key_In _ MeterApprovalRequest.id) in Hin. tauto.
Qed.

Lemma review_mutates_only_review_fields_witness :
  meters (committed db_review (review 9 admin 50 (PutReject (Some "no")) db_review)) =
    meters db_review /\
  agents (committed db_review (review 9 admin 50 (PutReject (Some "no")) db_review)) =
    agents db_review /\
  assignments (committed db_review (review 9 admin 50 (PutReject (Some "no")) db_review)) =
    assignments db_review /\
  Forall2 (review_frame 50) (approval_requests db_review)
    (approval_requests
       (committed db_review (review 9 admin 50 (PutReject (Some "no")) db_review))).
Proof.
  apply (review_mutates_only_review_fields 9%Z admin 50%N (PutReject (Some "no"%string))
           db_review
           (committed db_review (review 9 admin 50 (PutReject (Some "no")) db_review))
           {| success := true; data := None;
              message := Some "Request rejected successfully" |}).
  reflexivity.
Defined.

(** ** Assignment engine: single requests *)

Lemma AssignmentStatus_eqb_eq (a b : AssignmentStatus.t) :
  AssignmentStatus.eqb a b = true <-> a = b.
Proof. destruct a, b; simpl; split; intros H; try discriminate; reflexivity. Qed.

Lemma is_active_iff (s : AssignmentStatus.t) :
  is_active s = true <-> s = AssignmentStatus.PENDING \/ s = AssignmentStatus.IN_PROGRESS.
Proof.
  destruct s; simpl; split; intros H; auto; try discriminate;
    destruct H as [H|H]; discriminate.
Qed.

(** [delete_meter] names the statuses by value, the other handlers by
    member; the two filters agree. *)
Lemma value_in_active (s : AssignmentStatus.t) :
  existsb (String.eqb (AssignmentStatus.value s)) ["pending"; "in_progress"] = is_active s.
Proof. destruct s; reflexivity. Qed.

Lemma active_assignments_existing meter_id db :
  active_assignments meter_id db = existing_assignment meter_id db.
Proof.
  unfold active_assignments, existing_assignment. apply filter_ext.
  intros a. rewrite value_in_active. reflexivity.
Qed.

Lemma existing_assignment_In meter_id db a :
  In a (existing_assignment meter_id db) <->
  In a (assignments db) /\ MeterAssignment.meter_id a = meter_id /\
  is_active (MeterAssignment.status a) = true.
Proof.
  unfold existing_assignment. rewrite filter_In, andb_true_iff, N.eqb_eq.
  unfold is_active. tauto.
Qed.

(** C8. While some assignment with status pending or in_progress references
    a meter, [delete_meter] on it fails and the database is left as it
    was (with 400 "Cannot delete meter with active assignments" when the
    meter exists); whenever [delete_meter] succeeds, no assignment of that
    meter is pending or in progress. *)
Theorem delete_meter_refused_while_active :
  forall meter_id db,
    ((exists a, In a (assignments db) /\ MeterAssignment.meter_id a = meter_id /\
                (MeterAssignment.status a = AssignmentStatus.PENDING \/
                 MeterAssignment.status a = AssignmentStatus.IN_PROGRESS)) ->
     (exists e, delete_meter meter_id db = Err e) /\
     committed db (delete_meter meter_id db) = db /\
     (forall m, meter_by_id meter_id db = [m] ->
                delete_meter meter_id db =
                Err (HTTPException HTTP_400_BAD_REQUEST
                       "Cannot delete meter with active assignments"))) /\
    (forall db' resp,
        delete_meter meter_id db = Ok (db', resp) ->
        forall a, In a (assignments db) -> MeterAssignment.meter_id a = meter_id ->
                  MeterAssignment.status a <> AssignmentStatus.PENDING /\
                  MeterAssignment.status a <> AssignmentStatus.IN_PROGRESS).
Proof.
  intros meter_id db. split.
  - intros (a & Hin & Hm & Hs).
    assert (In a (active_assignments meter_id db)) as Ha.
    { rewrite active_assignments_existing. apply existing_assignment_In.
      repeat split; auto. now apply is_active_iff. }
    unfold delete_meter.
    destruct (meter_by_id meter_id db) as [|m [|m' rows]]; simpl.
    + repeat split; eauto. intros m Hm'. discriminate.
    + destruct (active_assignments meter_id db) as [|x xs]; [destruct Ha|].
      repeat split; eauto.
    + repeat split; eauto. intros m0 Hm'. discriminate.
  - intros db' resp H a Hin Hm.
    unfold delete_meter in H.
    destruct (meter_by_id meter_id db) as [|m [|m' rows]]; simpl in H; try discriminate.
    destruct (active_assignments meter_id db) as [|x xs] eqn:E; try discriminate.
    assert (is_active (MeterAssignment.status a) = false) as Hna.
    { destruct (is_active (MeterAssignment.status a)) eqn:Ea; [|reflexivity].
      assert (In a (active_assignments meter_id db)) as Ha.
      { rewrite active_assignments_existing. apply existing_assignment_In. auto. }
      rewrite E in Ha. destruct Ha. }
    split; intros Hs; rewrite Hs in Hna; discriminate.
Qed.

Lemma delete_meter_refused_while_active_witness :
  (exists e, delete_meter 1 db_in_progress = Err e) /\
  committed db_in_progress (delete_meter 1 db_in_progress) = db_in_progress /\
  (forall m, meter_by_id 1 db_in_progress = [m] ->
             delete_meter 1 db_in_progress =
             Err (HTTPException HTTP_400_BAD_REQUEST
                    "Cannot delete meter with active assignments")).
Proof.
  apply (proj1 (delete_meter_refused_while_active 1%N db_in_progress)).
  exists (sample_assignment 20 1 10 AssignmentStatus.IN_PROGRESS None).
  simpl. auto.
Defined.

(** *** What [setattr] leaves alone *)

Lemma setattr_update_id u a :
  MeterAssignment.id (setattr_update u a) = MeterAssignment.id a.
Proof.
  unfold setattr_update.
  destruct (MeterAssignmentUpdate.status u) as [[s|]|],
           (MeterAssignmentUpdate.estimated_time u),
           (MeterAssignmentUpdate.completion_notes u); reflexivity.
Qed.

Lemma setattr_update_meter_id u a :
  MeterAssignment.meter_id (setattr_update u a) = MeterAssignment.meter_id a.
Proof.
  unfold setattr_update.
  destruct (MeterAssignmentUpdate.status u) as [[s|]|],
           (MeterAssignmentUpdate.estimated_time u),
           (MeterAssignmentUpdate.completion_notes u); reflexivity.
Qed.

Lemma setattr_update_agent_id u a :
  MeterAssignment.agent_id (setattr_update u a) = MeterAssignment.agent_id a.
Proof.
  unfold setattr_update.
  destruct (MeterAssignmentUpdate.status u) as [[s|]|],
           (MeterAssignmentUpdate.estimated_time u),
           (MeterAssignmentUpdate.completion_notes u); reflexivity.
Qed.

Lemma setattr_update_completed_at u a :
  MeterAssignment.completed_at (setattr_update u a) = MeterAssignment.completed_at a.
Proof.
  unfold setattr_update.
  destruct (MeterAssignmentUpdate.status u) as [[s|]|],
           (MeterAssignmentUpdate.estimated_time u),
           (MeterAssignmentUpdate.completion_notes u); reflexivity.
Qed.

Lemma setattr_update_status u a :
  MeterAssignment.status (setattr_update u a) =
  match MeterAssignmentUpdate.status_attr u with
  | Some s => s
  | None => MeterAssignment.status a
  end.
Proof.
  unfold setattr_update, MeterAssignmentUpdate.status_attr.
  destruct (MeterAssignmentUpdate.status u) as [[s|]|],
           (MeterAssignmentUpdate.estimated_time u),
           (MeterAssignmentUpdate.completion_notes u); reflexivity.
Qed.

Lemma assignment_by_id_key assignment_id db a :
  assignment_by_id assignment_id db = [a] -> MeterAssignment.id a = assignment_id.
Proof.
  intros H.
  assert (In a (assignment_by_id assignment_id db)) as Hin by (rewrite H; now left).
  apply (by_key_In _ MeterAssignment.id) in Hin. tauto.
Qed.

Lemma assignment_by_id_flush assignment_id a x db :
  assignment_by_id assignment_id db = [a] ->
  MeterAssignment.id x = MeterAssignment.id a ->
  assignment_by_id assignment_id (flush_assignment x db) = [x].
Proof.
  intros Ha Hid. pose proof (assignment_by_id_key _ _ _ Ha) as Hk.
  unfold assignment_by_id, flush_assignment in *. simpl.
  change (by_key MeterAssignment.id assignment_id
            (replace_row MeterAssignment.id x (assignments db)) = [x]).
  rewrite by_key_replace_row, Hid, Hk, N.eqb_refl.
  unfold by_key. rewrite Ha. reflexivity.
Qed.

Lemma agent_by_id_flush agent_id ag x db :
  agent_by_id agent_id db = [ag] ->
  Agent.id x = Agent.id ag ->
  agent_by_id agent_id (flush_agent x db) = [x].
Proof.
  intros Ha Hid.
  assert (Agent.id ag = agent_id) as Hk.
  { assert (In ag (agent_by_id agent_id db)) as Hin by (rewrite Ha; now left).
    apply (by_key_In _ Agent.id) in Hin. tauto. }
  unfold agent_by_id, flush_agent in *. simpl.
  change (by_key Agent.id agent_id (replace_row Agent.id x (agents db)) = [x]).
  rewrite by_key_replace_row, Hid, Hk, N.eqb_refl.
  unfold by_key. rewrite Ha. reflexivity.
Qed.






(** C3 does not hold of [bulk_assign].  On the sample database, where X and
    Y carry no load, a bulk request naming X creates an assignment for X,
    and an automatic one creates two for X and one for Y; both leave every
    [current_load] at 0.  [create_assignment] for the same meter and agent
    takes X's load to 1. *)
Theorem bulk_assign_leaves_current_load :
  (map MeterAssignment.agent_id
       (assignments
          (committed db_ABC
             (bulk_assign (uuid4_from 30) 9 (bulk_request [1%N] (Some 10%N)) db_ABC))) = [10%N] /\
   map Agent.current_load
       (agents
          (committed db_ABC
             (bulk_assign (uuid4_from 30) 9 (bulk_request [1%N] (Some 10%N)) db_ABC))) =
     [0; 0]%Z) /\
  (map MeterAssignment.agent_id
       (assignments
          (committed db_ABC
             (bulk_assign (uuid4_from 30) 9 (bulk_request [1; 2; 3]%N None) db_ABC))) =
     [10; 11; 10]%N /\
   map Agent.current_load
       (agents
          (committed db_ABC
             (bulk_assign (uuid4_from 30) 9 (bulk_request [1; 2; 3]%N None) db_ABC))) =
     [0; 0]%Z) /\
  (map MeterAssignment.agent_id
       (assignments
          (committed db_ABC (create_assignment 30 9 (create_request 1 10) db_ABC))) = [10%N] /\
   map Agent.current_load
       (agents
          (committed db_ABC (create_assignment 30 9 (create_request 1 10) db_ABC))) =
     [1; 0]%Z).
Proof. vm_compute. repeat split. Qed.

(** C5 does not hold of [update_my_assignment_status].  An agent with load
    2 reports its in-progress assignment completed at time 8 and again at
    time 9: the second call moves [completed_at] from 8 to 9 and takes the
    load from 1 to 0.  A call for an assignment that is not the agent's
    dies of the attribute lookup instead of answering 404. *)
Theorem update_my_assignment_status_completes_twice :
  map MeterAssignment.completed_at
      (assignments
         (run db_in_progress
            [UpdateOwnAssignmentStatus 8 user_x 20 AssignmentStatus.COMPLETED None])) =
    [Some 8%Z] /\
  map Agent.current_load
      (agents
         (run db_in_progress
            [UpdateOwnAssignmentStatus 8 user_x 20 AssignmentStatus.COMPLETED None])) =
    [1%Z] /\
  map MeterAssignment.completed_at
      (assignments
         (run db_in_progress
            [UpdateOwnAssignmentStatus 8 user_x 20 AssignmentStatus.COMPLETED None;
             UpdateOwnAssignmentStatus 9 user_x 20 AssignmentStatus.COMPLETED None])) =
    [Some 9%Z] /\
  map Agent.current_load
      (agents
         (run db_in_progress
            [UpdateOwnAssignmentStatus 8 user_x 20 AssignmentStatus.COMPLETED None;
             UpdateOwnAssignmentStatus 9 user_x 20 AssignmentStatus.COMPLETED None])) =
    [0%Z] /\
  put_my_assignment_status 8 user_x 21 AssignmentStatus.COMPLETED None db_reassigned =
    Ok (flush_agent (agent_X 0)
          (flush_assignment
             (MeterAssignment.set_completed_at (Some 8%Z)
                (sample_assignment 21 1 10 AssignmentStatus.COMPLETED None))
             db_reassigned),
        {| success := true; data := None;
           message := Some "Assignment status updated successfully" |}) /\
  put_my_assignment_status 8 user_x 20 AssignmentStatus.COMPLETED None db_reassigned =
    Err (AttributeError "HTTP_404_NOT_FOUND").
Proof. vm_compute. repeat split. Qed.

(** ** Assignment engine: adding rows and the bulk loop *)

Local Open Scope list_scope.

Lemma add_assignment_Ok new db db1 :
  add_assignment new db = Ok db1 ->
  db1 = with_assignments (assignments db ++ [new]) db /\
  ~ In (MeterAssignment.id new) (map MeterAssignment.id (assignments db)).
Proof.
  unfold add_assignment.
  destruct (existsb (fun r => (MeterAssignment.id r =? MeterAssignment.id new)%N)
                    (assignments db)) eqn:E; intros H; inversion H.
  split; [reflexivity|].
  intros Hin. apply in_map_iff in Hin. destruct Hin as (r & Hr & Hin).
  assert (existsb (fun r => (MeterAssignment.id r =? MeterAssignment.id new)%N)
                  (assignments db) = true) as Ht.
  { apply existsb_exists. exists r. split; [exact Hin|]. now apply N.eqb_eq. }
  congruence.
Qed.


Lemma existing_assignment_add meter_id new db :
  existing_assignment meter_id (with_assignments (assignments db ++ [new]) db) =
  existing_assignment meter_id db ++
  (if (MeterAssignment.meter_id new =? meter_id)%N && is_active (MeterAssignment.status new)
   then [new] else []).
Proof.
  unfold existing_assignment, is_active. simpl. rewrite filter_app. simpl.
  destruct ((MeterAssignment.meter_id new =? meter_id)%N &&
            in_ [AssignmentStatus.PENDING; AssignmentStatus.IN_PROGRESS]
                (MeterAssignment.status new)); reflexivity.
Qed.

Lemma already_assigned_add meter_id new db :
  MeterAssignment.status new = AssignmentStatus.PENDING ->
  already_assigned (with_assignments (assignments db ++ [new]) db) meter_id =
  already_assigned db meter_id || (MeterAssignment.meter_id new =? meter_id)%N.
Proof.
  intros Hs. unfold already_assigned. rewrite existing_assignment_add, Hs. simpl.
  rewrite andb_true_r.
  destruct (existing_assignment meter_id db), (MeterAssignment.meter_id new =? meter_id)%N;
    reflexivity.
Qed.

Lemma one_active_per_meter_add new db :
  one_active_per_meter db ->
  existing_assignment (MeterAssignment.meter_id new) db = [] ->
  one_active_per_meter (with_assignments (assignments db ++ [new]) db).
Proof.
  intros Hinv Hfree m. rewrite existing_assignment_add, length_app.
  destruct (MeterAssignment.meter_id new =? m)%N eqn:E.
  - apply N.eqb_eq in E. subst m. rewrite Hfree. simpl.
    destruct (is_active (MeterAssignment.status new)); simpl; lia.
  - simpl. specialize (Hinv m). lia.
Qed.

Lemma NoDup_snoc {A : Type} (l : list A) (x : A) :
  NoDup l -> ~ In x l -> NoDup (l ++ [x]).
Proof.
  intros Hl Hx. apply NoDup_app; [exact Hl|repeat constructor; simpl; tauto|].
  intros y Hy [<-|[]]. tauto.
Qed.

(** One turn of the second loop of [bulk_assign], read backwards from a
    successful run. *)
Lemma bulk_assign_loop_cons bulk_data agents uuid4 now meter_id rest db k db' n :
  bulk_assign_loop bulk_data agents uuid4 now (meter_id :: rest) db k = Ok (db', n) ->
  (already_assigned db meter_id = true /\
   bulk_assign_loop bulk_data agents uuid4 now rest db k = Ok (db', n)) \/
  (exists new,
      existing_assignment meter_id db = [] /\
      MeterAssignment.meter_id new = meter_id /\
      created_at_count bulk_data agents uuid4 k new /\
      ~ In (MeterAssignment.id new) (map MeterAssignment.id (assignments db)) /\
      bulk_assign_loop bulk_data agents uuid4 now rest
        (with_assignments (assignments db ++ [new]) db) (S k) = Ok (db', n)).
Proof.
  simpl. unfold already_assigned.
  destruct (existing_assignment meter_id db) as [|x [|y rows]]; simpl; intros H;
    try discriminate; [|left; auto].
  right. unfold created_at_count.
  destruct (BulkAssignmentRequest.agent_id bulk_data) as [agent_id|] eqn:Eag; simpl in H.
  - match type of H with
    | bind (add_assignment ?r db) _ = _ =>
        destruct (add_assignment r db) as [db1|e] eqn:Eadd; simpl in H; try discriminate;
        apply add_assignment_Ok in Eadd; destruct Eadd as [-> Hfresh]; exists r
    end.
    simpl. repeat split; auto.
  - destruct (nth_error agents (k mod List.length agents)) as [agent|] eqn:Enth;
      simpl in H; try discriminate.
    match type of H with
    | bind (add_assignment ?r db) _ = _ =>
        destruct (add_assignment r db) as [db1|e] eqn:Eadd; simpl in H; try discriminate;
        apply add_assignment_Ok in Eadd; destruct Eadd as [-> Hfresh]; exists r
    end.
    simpl. repeat split; eauto.
Qed.

(** What a successful run of the loop has done to the database. *)
Lemma bulk_assign_loop_Ok bulk_data agents uuid4 now :
  forall meter_ids db k db' n,
    bulk_assign_loop bulk_data agents uuid4 now meter_ids db k = Ok (db', n) ->
    exists created,
      db' = with_assignments (assignments db ++ created) db /\
      n = k + List.length created /\
      (forall j a, nth_error created j = Some a ->
                   created_at_count bulk_data agents uuid4 (k + j) a) /\
      (forall m, count_for m created =
                 if existsb (N.eqb m) meter_ids && negb (already_assigned db m)
                 then 1 else 0) /\
      (NoDup meter_ids ->
       map MeterAssignment.meter_id created =
       filter (fun m => negb (already_assigned db m)) meter_ids).
Proof.
  induction meter_ids as [|m0 rest IH]; intros db k db' n H.
  - simpl in H. inversion H; subst. exists []. simpl.
    rewrite app_nil_r.
    split; [destruct db'; reflexivity|]. split; [lia|].
    split; [intros [|j] a Hj; discriminate|]. split; reflexivity.
  - apply bulk_assign_loop_cons in H. destruct H as [[Hbusy H]|(new & Hfree & Hm & Hnew & _ & H)].
    + apply IH in H. destruct H as (created & Hdb & Hn & Hrr & Hcount & Hord).
      exists created.
      split; [exact Hdb|]. split; [exact Hn|]. split; [exact Hrr|]. split.
      * intros m. rewrite Hcount. simpl.
        destruct (m =? m0)%N eqn:E; [|reflexivity].
        apply N.eqb_eq in E. subst m. rewrite Hbusy. simpl.
        now rewrite andb_false_r.
      * intros Hnd. inversion Hnd; subst. simpl. rewrite Hbusy. simpl. auto.
    + apply IH in H. destruct H as (created & Hdb & Hn & Hrr & Hcount & Hord).
      assert (MeterAssignment.status new = AssignmentStatus.PENDING) as Hst
          by apply Hnew.
      assert (already_assigned db m0 = false) as Hfree'
          by (unfold already_assigned; now rewrite Hfree).
      exists (new :: created). simpl in *.
      split; [|split; [|split; [|split]]].
      * rewrite Hdb. unfold with_assignments. simpl. now rewrite <- app_assoc.
      * lia.
      * intros [|j] a Hj; simpl in Hj.
        -- inversion Hj; subst. now rewrite Nat.add_0_r.
        -- rewrite Nat.add_succ_r. now apply Hrr.
      * intros m. unfold count_for in *. simpl. rewrite Hm.
        specialize (Hcount m). rewrite already_assigned_add in Hcount by exact Hst.
        rewrite Hm in Hcount. rewrite (N.eqb_sym m m0).
        destruct (m0 =? m)%N eqn:E; simpl.
        -- apply N.eqb_eq in E. subst m. rewrite Hcount, Hfree'. simpl.
           now rewrite andb_false_r.
        -- rewrite Hcount. now rewrite orb_false_r.
      * intros Hnd. inversion Hnd as [|? ? Hnin Hnd']; subst.
        rewrite Hfree'. simpl. f_equal. rewrite (Hord Hnd').
        apply filter_ext_in. intros m Hin.
        rewrite already_assigned_add by exact Hst.
        destruct (MeterAssignment.meter_id new =? m)%N eqn:E.
        -- apply N.eqb_eq in E. subst m. tauto.
        -- now rewrite orb_false_r.
Qed.

(** The loop keeps the primary key and the one-active-per-meter invariant. *)
Lemma bulk_assign_loop_keeps bulk_data agents uuid4 now :
  forall meter_ids db k db' n,
    bulk_assign_loop bulk_data agents uuid4 now meter_ids db k = Ok (db', n) ->
    NoDup (map MeterAssignment.id (assignments db)) ->
    one_active_per_meter db ->
    NoDup (map MeterAssignment.id (assignments db')) /\ one_active_per_meter db'.
Proof.
  induction meter_ids as [|m0 rest IH]; intros db k db' n H Hpk Hinv.
  - simpl in H. inversion H; subst. auto.
  - apply bulk_assign_loop_cons in H.
    destruct H as [[_ H]|(new & Hfree & Hm & _ & Hfresh & H)].
    + eapply IH; eauto.
    + eapply IH; [exact H| |].
      * simpl. rewrite map_app. simpl. now apply NoDup_snoc.
      * apply one_active_per_meter_add; [exact Hinv|]. now rewrite Hm.
Qed.


(** The invariant, decided on the rows. *)
Lemma one_active_per_meter_b_true db :
  one_active_per_meter_b db = true -> one_active_per_meter db.
Proof.
  unfold one_active_per_meter_b. intros H m.
  destruct (existing_assignment m db) as [|a rows] eqn:E; [simpl; lia|].
  assert (In a (existing_assignment m db)) as Ha by (rewrite E; now left).
  apply existing_assignment_In in Ha. destruct Ha as (Hin & Hm & _).
  rewrite forallb_forall in H. specialize (H a Hin).
  apply Nat.leb_le in H. rewrite Hm, E in H. exact H.
Qed.


Lemma bulk_assign_Ok uuid4 now bulk_data db db' resp :
  bulk_assign uuid4 now bulk_data db = Ok (db', resp) ->
  exists agents n,
    bulk_assign_loop bulk_data agents uuid4 now
      (BulkAssignmentRequest.meter_ids bulk_data) db 0 = Ok (db', n).
Proof.
  unfold bulk_assign. intros H.
  destruct (verify_meters (BulkAssignmentRequest.meter_ids bulk_data) db);
    simpl in H; try discriminate.
  match type of H with
  | bind ?c _ = _ => destruct c as [agents|e]; simpl in H; try discriminate
  end.
  destruct (bulk_assign_loop bulk_data agents uuid4 now
              (BulkAssignmentRequest.meter_ids bulk_data) db 0) as [[db1 n]|e] eqn:E;
    simpl in H; try discriminate.
  inversion H; subst. eauto.
Qed.



(** The spec's second scenario: with B already pending, a batch over
    [A, B, C] skips B and reports two assignments, A for X and C for Y. *)
Example bulk_assign_skips_B :
  exists db' resp,
    bulk_assign (uuid4_from 30) 9 (bulk_request [1; 2; 3]%N None) db_B_pending =
      Ok (db', resp) /\
    map (fun a => (MeterAssignment.meter_id a, MeterAssignment.agent_id a))
        (assignments db') = [(2, 10); (1, 10); (3, 11)]%N /\
    message resp = Some "Successfully created 2 assignments"%string.
Proof. eexists. eexists. split; [reflexivity|]. split; reflexivity. Qed.

(** ** Assignment engine: the one-active-per-meter invariant *)

Lemma create_assignment_Ok uuid4 now assignment_data db db' resp :
  create_assignment uuid4 now assignment_data db = Ok (db', resp) ->
  exists new agent,
    existing_assignment (MeterAssignment.meter_id new) db = [] /\
    ~ In (MeterAssignment.id new) (map MeterAssignment.id (assignments db)) /\
    agent_by_id (MeterAssignmentCreate.agent_id assignment_data) db = [agent] /\
    MeterAssignment.agent_id new = MeterAssignmentCreate.agent_id assignment_data /\
    MeterAssignment.status new = AssignmentStatus.PENDING /\
    db' = flush_agent (Agent.set_current_load (Agent.current_load agent + 1) agent)
            (with_assignments (assignments db ++ [new]) db).
Proof.
  unfold create_assignment. intros H.
  destruct (meter_by_id (MeterAssignmentCreate.meter_id assignment_data) db)
    as [|m [|m' ms]]; simpl in H; try discriminate.
  destruct (agent_by_id (MeterAssignmentCreate.agent_id assignment_data) db)
    as [|agent [|agent' ags]] eqn:Eag; simpl in H; try discriminate.
  destruct (existing_assignment (MeterAssignmentCreate.meter_id assignment_data) db)
    as [|x [|y rows]] eqn:Eex; simpl in H; try discriminate.
  match type of H with
  | bind (add_assignment ?r db) _ = _ =>
      destruct (add_assignment r db) as [db1|e] eqn:Eadd; simpl in H; try discriminate;
      apply add_assignment_Ok in Eadd; destruct Eadd as [-> Hfresh]; exists r, agent
  end.
  inversion H; subst. simpl. repeat split; auto.
Qed.

(** The part of C3 that holds: a successful [create_assignment] leaves the
    chosen agent with exactly one more. *)
Lemma create_assignment_increments_load uuid4 now assignment_data db db' resp agent :
  agent_by_id (MeterAssignmentCreate.agent_id assignment_data) db = [agent] ->
  create_assignment uuid4 now assignment_data db = Ok (db', resp) ->
  map Agent.current_load
      (agent_by_id (MeterAssignmentCreate.agent_id assignment_data) db') =
  [(Agent.current_load agent + 1)%Z].
Proof.
  intros Hag H. apply create_assignment_Ok in H.
  destruct H as (new & agent' & _ & _ & Hag' & _ & _ & ->).
  rewrite Hag in Hag'. inversion Hag'; subst agent'.
  rewrite (agent_by_id_flush _ agent); auto.
Qed.

(** A bulk request writes to the assignments table only. *)
Lemma bulk_assign_keeps_agents uuid4 now bulk_data db db' resp :
  bulk_assign uuid4 now bulk_data db = Ok (db', resp) ->
  agents db' = agents db /\ meters db' = meters db /\
  approval_requests db' = approval_requests db.
Proof.
  intros H. apply bulk_assign_Ok in H. destruct H as (ags & n & H).
  apply bulk_assign_loop_Ok in H. destruct H as (created & -> & _).
  auto.
Qed.

Lemma flush_agent_ids x a db :
  map Agent.id (agents (flush_assignment a (flush_agent x db))) =
  map Agent.id (agents db).
Proof. apply (map_key_replace_row _ Agent.id x (agents db)). Qed.

Lemma update_assignment_Ok now assignment_id u db db' resp :
  update_assignment now assignment_id u db = Ok (db', resp) ->
  exists a a',
    assignment_by_id assignment_id db = [a] /\
    assignments db' = replace_row MeterAssignment.id a' (assignments db) /\
    MeterAssignment.id a' = MeterAssignment.id a /\
    MeterAssignment.meter_id a' = MeterAssignment.meter_id a /\
    MeterAssignment.status a' =
      match MeterAssignmentUpdate.status_attr u with
      | Some s => s
      | None => MeterAssignment.status a
      end /\
    map Agent.id (agents db') = map Agent.id (agents db).
Proof.
  unfold update_assignment. intros H.
  destruct (assignment_by_id assignment_id db) as [|a [|a2 rows]]; simpl in H;
    try discriminate.
  exists a.
  pose proof (setattr_update_id u a) as Hid.
  pose proof (setattr_update_meter_id u a) as Hmid.
  pose proof (setattr_update_status u a) as Hst.
  set (a0 := setattr_update u a) in *.
  destruct (is_COMPLETED (MeterAssignmentUpdate.status_attr u)
            && is_unset (MeterAssignment.completed_at a0)).
  - simpl in H.
    destruct (agent_by_id (MeterAssignment.agent_id a0) db)
      as [|ag [|ag2 ags]]; simpl in H; try discriminate.
    + destruct (MeterAssignmentUpdate.status u) as [[s|]|]; inversion H; subst;
        exists (MeterAssignment.set_completed_at (Some now) a0);
        repeat split; auto.
    + destruct (0 <? Agent.current_load ag)%Z; simpl in H;
        destruct (MeterAssignmentUpdate.status u) as [[s|]|]; inversion H; subst;
        exists (MeterAssignment.set_completed_at (Some now) a0);
        repeat split; auto; apply flush_agent_ids.
  - simpl in H.
    destruct (MeterAssignmentUpdate.status u) as [[s|]|]; inversion H; subst;
      exists a0; repeat split; auto.
Qed.

Lemma put_my_assignment_status_Ok now current_user assignment_id status
    completion_notes db db' resp :
  put_my_assignment_status now current_user assignment_id status completion_notes db =
    Ok (db', resp) ->
  exists a a',
    In a (assignments db) /\
    MeterAssignment.id a = assignment_id /\
    assignments db' = replace_row MeterAssignment.id a' (assignments db) /\
    MeterAssignment.id a' = MeterAssignment.id a /\
    MeterAssignment.meter_id a' = MeterAssignment.meter_id a /\
    MeterAssignment.status a' = status /\
    map Agent.id (agents db') = map Agent.id (agents db).
Proof.
  unfold put_my_assignment_status. intros H.
  destruct (get_current_agent current_user db) as [current_agent|e]; simpl in H;
    try discriminate.
  unfold update_my_assignment_status in H.
  match type of H with
  | bind (scalar_one_or_none ?rows) _ = _ =>
      destruct rows as [|a [|a2 rows']] eqn:Erows; simpl in H; try discriminate
  end.
  assert (In a (assignments db) /\ MeterAssignment.id a = assignment_id) as [Hin Hid].
  { assert (In a [a]) as Ha by now left. rewrite <- Erows in Ha.
    apply filter_In in Ha. destruct Ha as [Ha Hb].
    apply andb_true_iff in Hb. destruct Hb as [Hb _]. apply N.eqb_eq in Hb. auto. }
  exists a.
  destruct (AssignmentStatus.eqb status AssignmentStatus.COMPLETED).
  - destruct (0 <? Agent.current_load current_agent)%Z; inversion H; subst;
      eexists; repeat split; auto; apply flush_agent_ids.
  - inversion H; subst. eexists; repeat split; auto.
Qed.

Lemma filter_map_length_le {A : Type} (p : A -> bool) (f : A -> A) (l : list A) :
  (forall r, In r l -> p (f r) = true -> p r = true) ->
  List.length (filter p (map f l)) <= List.length (filter p l).
Proof.
  induction l as [|r l IH]; simpl; intros H; [lia|].
  assert (List.length (filter p (map f l)) <= List.length (filter p l)) as Hle
      by (apply IH; intros x Hx; apply H; now right).
  destruct (p (f r)) eqn:E.
  - rewrite (H r (or_introl eq_refl) E). simpl. lia.
  - destruct (p r); simpl; lia.
Qed.

(** Writing a row back keeps the invariant when the row keeps its meter
    and was active if it is active now. *)
Lemma one_active_per_meter_replace db db' a a' :
  assignment_by_id (MeterAssignment.id a) db = [a] ->
  assignments db' = replace_row MeterAssignment.id a' (assignments db) ->
  MeterAssignment.id a' = MeterAssignment.id a ->
  MeterAssignment.meter_id a' = MeterAssignment.meter_id a ->
  (is_active (MeterAssignment.status a') = true ->
   is_active (MeterAssignment.status a) = true) ->
  one_active_per_meter db -> one_active_per_meter db'.
Proof.
  intros Ha Hdb Hid Hm Hact Hinv m.
  eapply Nat.le_trans; [|apply (Hinv m)].
  unfold existing_assignment. rewrite Hdb. unfold replace_row.
  apply filter_map_length_le. intros r Hr.
  destruct (MeterAssignment.id r =? MeterAssignment.id a')%N eqn:E; [|auto].
  apply N.eqb_eq in E.
  assert (In r (assignment_by_id (MeterAssignment.id a) db)) as Hin.
  { apply (by_key_In _ MeterAssignment.id). split; [exact Hr|congruence]. }
  rewrite Ha in Hin. destruct Hin as [<-|[]].
  rewrite Hm. intros Hp. apply andb_true_iff in Hp. destruct Hp as [Hp1 Hp2].
  apply andb_true_iff. split; [exact Hp1|]. now apply Hact.
Qed.

Lemma one_active_per_meter_same db db' :
  assignments db' = assignments db -> one_active_per_meter db -> one_active_per_meter db'.
Proof.
  intros H Hinv m. unfold existing_assignment. rewrite H. apply Hinv.
Qed.

(** One request that does not reactivate keeps primary keys and the
    invariant. *)
Lemma step_keeps_invariant db op :
  pk_unique db -> one_active_per_meter db -> reactivates db op = false ->
  pk_unique (step db op) /\ one_active_per_meter (step db op).
Proof.
  intros [Hpk Hpka] Hinv Hre.
  destruct op as [uuid4 now assignment_data|uuid4 now bulk_data
                 |now assignment_id u|now current_user assignment_id status notes];
    simpl.
  - destruct (create_assignment uuid4 now assignment_data db) as [[db' resp]|e] eqn:E;
      simpl; [|split; [split|]; auto].
    apply create_assignment_Ok in E.
    destruct E as (new & agent & Hfree & Hfresh & _ & _ & _ & ->).
    split; [split|].
    + simpl. rewrite map_app. simpl. now apply NoDup_snoc.
    + simpl. change (NoDup (map Agent.id (replace_row Agent.id
                       (Agent.set_current_load (Agent.current_load agent + 1) agent)
                       (agents db)))).
      now rewrite map_key_replace_row.
    + apply (one_active_per_meter_same
               (with_assignments (assignments db ++ [new]) db)); [reflexivity|].
      now apply one_active_per_meter_add.
  - destruct (bulk_assign uuid4 now bulk_data db) as [[db' resp]|e] eqn:E;
      simpl; [|split; [split|]; auto].
    destruct (bulk_assign_keeps_agents _ _ _ _ _ _ E) as (Hag & _ & _).
    apply bulk_assign_Ok in E. destruct E as (ags & n & E).
    destruct (bulk_assign_loop_keeps _ _ _ _ _ _ _ _ _ E Hpk Hinv) as [Hpk' Hinv'].
    split; [split|]; auto. now rewrite Hag.
  - destruct (update_assignment now assignment_id u db) as [[db' resp]|e] eqn:E;
      simpl; [|split; [split|]; auto].
    apply update_assignment_Ok in E.
    destruct E as (a & a' & Ha & Hdb & Hid & Hm & Hst & Hag).
    pose proof (assignment_by_id_key _ _ _ Ha) as Hk.
    split; [split|].
    + rewrite Hdb. now rewrite map_key_replace_row.
    + now rewrite Hag.
    + apply (one_active_per_meter_replace db db' a a'); auto; [now rewrite Hk|].
      rewrite Hst. unfold reactivates in Hre. simpl in Hre.
      destruct (MeterAssignmentUpdate.status_attr u) as [s|]; [|auto].
      rewrite Ha in Hre. simpl in Hre. intros Hs. rewrite Hs in Hre. simpl in Hre.
      rewrite orb_false_r in Hre. now apply negb_false_iff in Hre.
  - destruct (put_my_assignment_status now current_user assignment_id status notes db)
      as [[db' resp]|e] eqn:E; simpl; [|split; [split|]; auto].
    apply put_my_assignment_status_Ok in E.
    destruct E as (a & a' & Hin & Hk & Hdb & Hid & Hm & Hst & Hag).
    pose proof (by_key_single _ MeterAssignment.id assignment_id (assignments db) a
                  Hpk Hin Hk) as Ha.
    split; [split|].
    + rewrite Hdb. now rewrite map_key_replace_row.
    + now rewrite Hag.
    + apply (one_active_per_meter_replace db db' a a'); auto;
        [rewrite Hk; exact Ha|].
      rewrite Hst. unfold reactivates in Hre. simpl in Hre.
      change (by_key MeterAssignment.id assignment_id (assignments db))
        with (assignment_by_id assignment_id db) in Ha.
      rewrite Ha in Hre. simpl in Hre. intros Hs. rewrite Hs in Hre. simpl in Hre.
      rewrite orb_false_r in Hre. now apply negb_false_iff in Hre.
Qed.

Lemma run_keeps_invariant :
  forall ops db,
    pk_unique db -> one_active_per_meter db -> no_reactivation db ops = true ->
    pk_unique (run db ops) /\ one_active_per_meter (run db ops).
Proof.
  induction ops as [|op ops IH]; intros db Hpk Hinv Hno; simpl in *; [auto|].
  apply andb_true_iff in Hno. destruct Hno as [Hre Hno].
  apply negb_true_iff in Hre.
  destruct (step_keeps_invariant db op Hpk Hinv Hre) as [Hpk' Hinv'].
  apply IH; auto.
Qed.

(** C1, as stated, fails.  In the sample database meter A has a completed
    assignment (of Y) and a pending one (of X), so the invariant holds.  One
    [UpdateAssignment] that sets the completed one to pending, or one
    [UpdateOwnAssignmentStatus] by Y that sets it to in_progress, succeeds
    and leaves A with two active assignments. *)
Lemma reactivation_breaks_one_active_per_meter :
  pk_unique db_reassigned /\
  one_active_per_meter db_reassigned /\
  ~ one_active_per_meter
      (run db_reassigned
         [UpdateAssignment 9 20 (set_status_to AssignmentStatus.PENDING)]) /\
  ~ one_active_per_meter
      (run db_reassigned
         [UpdateOwnAssignmentStatus 9 user_y 20 AssignmentStatus.IN_PROGRESS None]).
Proof.
  split; [|split; [|split]].
  - split; simpl; repeat constructor; simpl; intuition discriminate.
  - apply one_active_per_meter_b_true. reflexivity.
  - intros H. specialize (H 1%N). vm_compute in H. lia.
  - intros H. specialize (H 1%N). vm_compute in H. lia.
Qed.

(** C1, amended.  Starting from a database with primary keys in which every
    meter has at most one assignment that is pending or in progress, every
    sequence of CreateAssignment, BulkAssign, UpdateAssignment and
    UpdateOwnAssignmentStatus requests in which no update sets an
    assignment that is neither pending nor in progress to pending or
    in_progress ends in a database where every meter again has at most
    one. *)
Theorem one_active_per_meter_preserved :
  forall db ops,
    pk_unique db ->
    one_active_per_meter db ->
    no_reactivation db ops = true ->
    one_active_per_meter (run db ops).
Proof.
  intros db ops Hpk Hinv Hno.
  apply (run_keeps_invariant ops db Hpk Hinv Hno).
Qed.

Lemma one_active_per_meter_preserved_witness :
  one_active_per_meter (run db_ABC sample_day).
Proof.
  apply (one_active_per_meter_preserved db_ABC sample_day).
  - split; simpl; repeat constructor; simpl; intuition discriminate.
  - intros m. simpl. lia.
  - vm_compute. reflexivity.
Defined.

(** ** [create_assignment]: when it succeeds and what it writes *)

Lemma by_key_present {A : Type} (key : A -> N) (k : N) (l : list A) :
  NoDup (map key l) -> In k (map key l) -> exists r, by_key key k l = [r].
Proof.
  intros Hnd Hin. apply in_map_iff in Hin. destruct Hin as (r & Hk & Hin).
  exists r. now apply by_key_single.
Qed.


Lemma one_active_existing db meter_id :
  one_active_per_meter db ->
  existing_assignment meter_id db = [] \/
  exists a, existing_assignment meter_id db = [a].
Proof.
  intros Hinv. specialize (Hinv meter_id).
  destruct (existing_assignment meter_id db) as [|a [|b rows]]; simpl in Hinv.
  - now left.
  - right. now exists a.
  - lia.
Qed.





(** ** [bulk_assign]: failures, the named agent, who is drawn *)

Lemma verify_meters_first_unknown meter_ids db :
  NoDup (map Meter.id (meters db)) ->
  verify_meters meter_ids db =
  match first_unknown_meter meter_ids db with
  | Some m => Err (HTTPException HTTP_404_NOT_FOUND
                     ("Meter " ++ str_uuid m ++ " not found")%string)
  | None => Ok tt
  end.
Proof.
  intros Hnd. unfold first_unknown_meter.
  induction meter_ids as [|m0 rest IH]; [reflexivity|].
  cbn [verify_meters find].
  destruct (by_key_NoDup _ Meter.id m0 (meters db) Hnd) as [E|[r E]];
    unfold meter_by_id; unfold by_key in E; rewrite E; cbn [scalar_one_or_none bind].
  - reflexivity.
  - exact IH.
Qed.

(** X3. With a primary key on meters, a bulk request that names a meter
    without a row fails with 404 "Meter <id> not found" for the first such
    meter in request order, whatever else the request says (known or
    unknown agent, other meters assignable or not), and writes nothing. *)
Theorem bulk_assign_unknown_meter :
  forall uuid4 now bulk_data db m,
    NoDup (map Meter.id (meters db)) ->
    first_unknown_meter (BulkAssignmentRequest.meter_ids bulk_data) db = Some m ->
    bulk_assign uuid4 now bulk_data db =
      Err (HTTPException HTTP_404_NOT_FOUND
             ("Meter " ++ str_uuid m ++ " not found")%string) /\
    committed db (bulk_assign uuid4 now bulk_data db) = db.
Proof.
  intros uuid4 now bulk_data db m Hnd Hm.
  assert (bulk_assign uuid4 now bulk_data db =
          Err (HTTPException HTTP_404_NOT_FOUND
                 ("Meter " ++ str_uuid m ++ " not found")%string)) as H.
  { unfold bulk_assign. rewrite (verify_meters_first_unknown _ _ Hnd), Hm. reflexivity. }
  split; [exact H|]. rewrite H. reflexivity.
Qed.

Lemma bulk_assign_unknown_meter_witness :
  bulk_assign (uuid4_from 30) 9 (bulk_request [1; 7; 8]%N (Some 99%N)) db_ABC =
    Err (HTTPException HTTP_404_NOT_FOUND
           ("Meter " ++ str_uuid 7 ++ " not found")%string) /\
  committed db_ABC
    (bulk_assign (uuid4_from 30) 9 (bulk_request [1; 7; 8]%N (Some 99%N)) db_ABC) = db_ABC.
Proof.
  apply (bulk_assign_unknown_meter (uuid4_from 30) 9%Z
           (bulk_request [1; 7; 8]%N (Some 99%N)) db_ABC 7%N).
  - simpl. repeat constructor; simpl; intuition discriminate.
  - reflexivity.
Defined.

(** X4. When [get_available_agents] lists nobody, an automatic bulk request
    over known meters fails with 400 "No available agents found" and writes
    nothing, also when every requested meter is already assigned and there
    would be nothing to create. *)
Theorem bulk_assign_nobody_available :
  forall uuid4 now bulk_data db,
    NoDup (map Meter.id (meters db)) ->
    first_unknown_meter (BulkAssignmentRequest.meter_ids bulk_data) db = None ->
    BulkAssignmentRequest.agent_id bulk_data = None ->
    get_available_agents db = Ok {| success := true; data := Some []; message := None |} ->
    bulk_assign uuid4 now bulk_data db =
      Err (HTTPException HTTP_400_BAD_REQUEST "No available agents found") /\
    committed db (bulk_assign uuid4 now bulk_data db) = db.
Proof.
  intros uuid4 now bulk_data db Hnd Hm Hnone Hav.
  assert (available_agents db = []) as E.
  { unfold get_available_agents in Hav. injection Hav as H. exact H. }
  assert (bulk_assign uuid4 now bulk_data db =
          Err (HTTPException HTTP_400_BAD_REQUEST "No available agents found")) as H.
  { unfold bulk_assign. rewrite (verify_meters_first_unknown _ _ Hnd), Hm. simpl.
    rewrite Hnone, E. reflexivity. }
  split; [exact H|]. rewrite H. reflexivity.
Qed.

Lemma first_unknown_meter_None meter_ids db :
  first_unknown_meter meter_ids db = None ->
  NoDup (map Meter.id (meters db)) ->
  forall m, In m meter_ids -> exists row, meter_by_id m db = [row].
Proof.
  intros Hnone Hnd m Hin. unfold first_unknown_meter in Hnone.
  pose proof (find_none _ _ Hnone m Hin) as H. simpl in H.
  unfold meter_by_id in *.
  destruct (by_key_NoDup _ Meter.id m (meters db) Hnd) as [E|[r E]];
    unfold by_key in E; rewrite E in *; [discriminate|eauto].
Qed.



Lemma bulk_assign_nobody_available_witness :
  bulk_assign (uuid4_from 30) 9 (bulk_request [2]%N None) db_nobody =
    Err (HTTPException HTTP_400_BAD_REQUEST "No available agents found") /\
  committed db_nobody (bulk_assign (uuid4_from 30) 9 (bulk_request [2]%N None) db_nobody) =
    db_nobody.
Proof.
  apply (bulk_assign_nobody_available (uuid4_from 30) 9%Z (bulk_request [2]%N None)
           db_nobody).
  - simpl. repeat constructor; simpl; intuition discriminate.
  - reflexivity.
  - reflexivity.
  - reflexivity.
Defined.

(** ** [bulk_assign]: how the rows are shared out, and running it again *)

Lemma where_keeps_keys_unique {Row Key : Type} (key : Row -> Key)
  (rows : list Row) (Huniq : NoDup (map key rows)) (cond : Row -> bool) :
  NoDup (map key (filter cond rows)).
Proof.
  induction rows as [|r rows IH]; cbn [filter map] in *; [constructor|].
  apply NoDup_cons_iff in Huniq. destruct Huniq as [Hfresh Hrest].
  destruct (cond r); cbn [map]; [|now apply IH].
  apply NoDup_cons; [|now apply IH].
  rewrite in_map_iff. intros (r' & Hkey & Hr').
  apply filter_In in Hr'. apply Hfresh. rewrite in_map_iff. exists r'. tauto.
Qed.

(** A successful automatic batch, read backwards. *)
Lemma bulk_assign_Ok_auto uuid4 now bulk_data db db' resp :
  BulkAssignmentRequest.agent_id bulk_data = None ->
  bulk_assign uuid4 now bulk_data db = Ok (db', resp) ->
  exists created,
    db' = with_assignments (assignments db ++ created) db /\
    message resp = Some ("Successfully created " ++ str_nat (List.length created) ++
                         " assignments")%string /\
    (forall k a, nth_error created k = Some a ->
                 created_at_count bulk_data (available_agents db) uuid4 k a) /\
    (forall m, count_for m created =
               if existsb (N.eqb m) (BulkAssignmentRequest.meter_ids bulk_data)
                  && negb (already_assigned db m)
               then 1 else 0).
Proof.
  intros Hnone H. unfold bulk_assign in H.
  destruct (verify_meters (BulkAssignmentRequest.meter_ids bulk_data) db);
    cbn [bind] in H; try discriminate.
  rewrite Hnone in H.
  destruct (available_agents db) as [|ag ags] eqn:Eav; cbn [bind] in H; try discriminate.
  destruct (bulk_assign_loop bulk_data (ag :: ags) uuid4 now
              (BulkAssignmentRequest.meter_ids bulk_data) db 0) as [[db1 n]|e] eqn:E;
    cbn [bind] in H; try discriminate.
  inversion H; subst db' resp. clear H.
  apply bulk_assign_loop_Ok in E. destruct E as (created & Hdb & Hn & Hrr & Hcount & _).
  exists created. simpl in Hn. subst n.
  split; [exact Hdb|]. split; [reflexivity|]. split; [exact Hrr|exact Hcount].
Qed.

Lemma div_mod_succ c n i :
  i < n ->
  S c / n + (if (i <? S c mod n)%nat then 1 else 0) =
  c / n + (if (i <? c mod n)%nat then 1 else 0) + (if (c mod n =? i)%nat then 1 else 0).
Proof.
  intros Hi. assert (n <> 0) as Hn by lia.
  pose proof (Nat.div_mod_eq c n) as Hc.
  pose proof (Nat.mod_upper_bound c n Hn) as Hr.
  set (q := c / n) in *. set (r := c mod n) in *.
  destruct (Nat.eq_dec (S r) n) as [E|E].
  - assert (S c / n = S q) as Hq.
    { symmetry. apply (Nat.div_unique (S c) n (S q) 0); [lia|nia]. }
    assert (S c mod n = 0) as Hm.
    { symmetry. apply (Nat.mod_unique (S c) n (S q) 0); [lia|nia]. }
    rewrite Hq, Hm.
    assert ((i <? 0)%nat = false) as -> by (apply Nat.ltb_ge; lia).
    destruct (Nat.ltb_spec i r); destruct (Nat.eqb_spec r i); lia.
  - assert (S c / n = q) as Hq.
    { symmetry. apply (Nat.div_unique (S c) n q (S r)); [lia|nia]. }
    assert (S c mod n = S r) as Hm.
    { symmetry. apply (Nat.mod_unique (S c) n q (S r)); [lia|nia]. }
    rewrite Hq, Hm.
    destruct (Nat.ltb_spec i (S r)); destruct (Nat.ltb_spec i r);
      destruct (Nat.eqb_spec r i); lia.
Qed.

(** Rows dealt out in turn: each of the [n] agents gets the whole part of
    [c / n], and the first [c mod n] agents one more. *)
Lemma round_robin_count (ags : list Agent.t) :
  NoDup (map Agent.id ags) ->
  forall created : list MeterAssignment.t,
    (forall k a, nth_error created k = Some a ->
       exists ag, nth_error ags (k mod List.length ags) = Some ag /\
                  MeterAssignment.agent_id a = Agent.id ag) ->
    forall i ag, nth_error ags i = Some ag ->
      count_of_agent (Agent.id ag) created =
      List.length created / List.length ags +
      (if (i <? List.length created mod List.length ags)%nat then 1 else 0).
Proof.
  intros Hnd created. induction created as [|a l IH] using rev_ind;
    intros Hrr i ag Hi.
  - assert (i < List.length ags) as Hlt by (apply nth_error_Some; congruence).
    simpl. rewrite Nat.Div0.div_0_l, Nat.Div0.mod_0_l. reflexivity.
  - assert (i < List.length ags) as Hlt by (apply nth_error_Some; congruence).
    assert (forall k b, nth_error l k = Some b ->
              exists ag0, nth_error ags (k mod List.length ags) = Some ag0 /\
                          MeterAssignment.agent_id b = Agent.id ag0) as Hl.
    { intros k b Hk. apply Hrr. rewrite nth_error_app1; [exact Hk|].
      apply nth_error_Some. congruence. }
    specialize (IH Hl i ag Hi).
    destruct (Hrr (List.length l) a) as (ag' & Hag' & Hid).
    { rewrite nth_error_app2 by lia. rewrite Nat.sub_diag. reflexivity. }
    unfold count_of_agent in *. rewrite filter_app, !length_app. simpl.
    rewrite Nat.add_1_r, IH.
    rewrite (div_mod_succ (List.length l) (List.length ags) i Hlt).
    assert ((MeterAssignment.agent_id a =? Agent.id ag)%N =
            (List.length l mod List.length ags =? i)%nat) as Heq.
    { destruct (List.length l mod List.length ags =? i)%nat eqn:E.
      - apply Nat.eqb_eq in E. rewrite E in Hag'. rewrite Hi in Hag'.
        inversion Hag'; subst. rewrite Hid. apply N.eqb_refl.
      - apply N.eqb_neq. intros Hsame. apply Nat.eqb_neq in E. apply E.
        symmetry.
        apply (proj1 (NoDup_nth_error (map Agent.id ags)) Hnd i
                 (List.length l mod List.length ags)).
        + now rewrite length_map.
        + rewrite !nth_error_map, Hi, Hag'. simpl. congruence. }
    rewrite Heq.
    destruct (List.length l mod List.length ags =? i)%nat; simpl; lia.
Qed.

(** X6. When an automatic bulk request succeeds and creates c rows with n
    agents eligible, the agent at position i of the eligible list gets
    c / n rows (whole part), plus one if i < c mod n: no eligible agent gets
    two rows more than another, and the max load of an agent puts no bound
    on what it is given. *)
Theorem bulk_assign_shares_evenly :
  forall uuid4 now bulk_data db db' resp,
    NoDup (map Agent.id (agents db)) ->
    BulkAssignmentRequest.agent_id bulk_data = None ->
    bulk_assign uuid4 now bulk_data db = Ok (db', resp) ->
    exists created,
      assignments db' = assignments db ++ created /\
      forall i ag, nth_error (available_agents db) i = Some ag ->
        count_of_agent (Agent.id ag) created =
        List.length created / List.length (available_agents db) +
        (if (i <? List.length created mod List.length (available_agents db))%nat
         then 1 else 0).
Proof.
  intros uuid4 now bulk_data db db' resp Hnd Hnone H.
  destruct (bulk_assign_Ok_auto _ _ _ _ _ _ Hnone H) as (created & -> & _ & Hrr & _).
  exists created. split; [reflexivity|].
  apply round_robin_count.
  - unfold available_agents. now apply where_keeps_keys_unique.
  - intros k a Hk. apply Hrr in Hk. unfold created_at_count in Hk.
    rewrite Hnone in Hk. tauto.
Qed.

Lemma bulk_assign_shares_evenly_witness :
  exists created,
    assignments
      (committed db_ABC
         (bulk_assign (uuid4_from 30) 9 (bulk_request [1; 2; 3]%N None) db_ABC)) =
      assignments db_ABC ++ created /\
    forall i ag, nth_error (available_agents db_ABC) i = Some ag ->
      count_of_agent (Agent.id ag) created =
      List.length created / List.length (available_agents db_ABC) +
      (if (i <? List.length created mod List.length (available_agents db_ABC))%nat
       then 1 else 0).
Proof.
  apply (bulk_assign_shares_evenly (uuid4_from 30) 9%Z (bulk_request [1; 2; 3]%N None)
           db_ABC
           (committed db_ABC
              (bulk_assign (uuid4_from 30) 9 (bulk_request [1; 2; 3]%N None) db_ABC))
           {| success := true; data := None;
              message := Some "Successfully created 3 assignments"%string |}).
  - simpl. repeat constructor; simpl; intuition discriminate.
  - reflexivity.
  - reflexivity.
Defined.

(** X7. Every row an automatic bulk request creates belongs to an agent
    that [get_available_agents] listed on the database the batch started
    from: an agent of the agents table whose status is available and whose
    load is below its max load. *)
Theorem bulk_assign_draws_from_available :
  forall uuid4 now bulk_data db db' resp ags,
    BulkAssignmentRequest.agent_id bulk_data = None ->
    get_available_agents db =
      Ok {| success := true; data := Some ags; message := None |} ->
    bulk_assign uuid4 now bulk_data db = Ok (db', resp) ->
    exists created,
      assignments db' = assignments db ++ created /\
      Forall (fun a => exists ag,
                In ag ags /\ In ag (agents db) /\
                MeterAssignment.agent_id a = Agent.id ag /\
                Agent.status ag = AVAILABLE /\
                (Agent.current_load ag < Agent.max_load ag)%Z) created.
Proof.
  intros uuid4 now bulk_data db db' resp ags Hnone Hav H.
  assert (ags = available_agents db) as ->.
  { unfold get_available_agents in Hav. injection Hav as Hags. symmetry. exact Hags. }
  destruct (bulk_assign_Ok_auto _ _ _ _ _ _ Hnone H) as (created & -> & _ & Hrr & _).
  exists created. split; [reflexivity|].
  apply Forall_forall. intros a Hin.
  apply In_nth_error in Hin. destruct Hin as [k Hk].
  apply Hrr in Hk. unfold created_at_count in Hk. rewrite Hnone in Hk.
  destruct Hk as (_ & _ & _ & ag & Hag & Hid).
  apply nth_error_In in Hag. exists ag.
  pose proof Hag as Hf. unfold available_agents in Hf. apply filter_In in Hf.
  destruct Hf as [Hin Hp]. apply andb_true_iff in Hp. destruct Hp as [Hs Hl].
  repeat split; auto.
  - destruct (Agent.status ag); simpl in Hs; try discriminate. reflexivity.
  - now apply Z.ltb_lt.
Qed.

Lemma bulk_assign_draws_from_available_witness :
  exists created,
    assignments
      (committed db_B_pending
         (bulk_assign (uuid4_from 30) 9 (bulk_request [1; 2; 3]%N None) db_B_pending)) =
      assignments db_B_pending ++ created /\
    Forall (fun a => exists ag,
              In ag [agent_X 1; agent_Y 0] /\ In ag (agents db_B_pending) /\
              MeterAssignment.agent_id a = Agent.id ag /\
              Agent.status ag = AVAILABLE /\
              (Agent.current_load ag < Agent.max_load ag)%Z) created.
Proof.
  apply (bulk_assign_draws_from_available (uuid4_from 30) 9%Z
           (bulk_request [1; 2; 3]%N None) db_B_pending
           (committed db_B_pending
              (bulk_assign (uuid4_from 30) 9 (bulk_request [1; 2; 3]%N None) db_B_pending))
           {| success := true; data := None;
              message := Some "Successfully created 2 assignments"%string |}
           [agent_X 1; agent_Y 0]).
  - reflexivity.
  - reflexivity.
  - reflexivity.
Defined.

Lemma verify_meters_same_meters meter_ids db db' :
  meters db' = meters db -> verify_meters meter_ids db' = verify_meters meter_ids db.
Proof.
  intros H. induction meter_ids as [|m0 rest IH]; [reflexivity|].
  cbn [verify_meters]. unfold meter_by_id. rewrite H, IH. reflexivity.
Qed.

Lemma bulk_assign_loop_all_assigned bulk_data agents uuid4 now :
  forall meter_ids db k,
    one_active_per_meter db ->
    (forall m, In m meter_ids -> already_assigned db m = true) ->
    bulk_assign_loop bulk_data agents uuid4 now meter_ids db k = Ok (db, k).
Proof.
  induction meter_ids as [|m0 rest IH]; intros db k Hinv Hall; [reflexivity|].
  cbn [bulk_assign_loop].
  pose proof (Hall m0 (or_introl eq_refl)) as Hm0. unfold already_assigned in Hm0.
  destruct (one_active_existing db m0 Hinv) as [E|[a E]]; rewrite E in *;
    [discriminate|].
  cbn [scalar_one_or_none bind]. apply IH; [exact Hinv|].
  intros m Hm. apply Hall. now right.
Qed.

Lemma existing_assignment_app meter_id rows db :
  existing_assignment meter_id (with_assignments (assignments db ++ rows) db) =
  existing_assignment meter_id db ++
  filter (fun a => (MeterAssignment.meter_id a =? meter_id)%N &&
                   in_ [AssignmentStatus.PENDING; AssignmentStatus.IN_PROGRESS]
                       (MeterAssignment.status a)) rows.
Proof. unfold existing_assignment. simpl. apply filter_app. Qed.

(** After a successful batch every requested meter has an active
    assignment. *)
Lemma bulk_assign_loop_covers bulk_data agents uuid4 now meter_ids db k db' n :
  bulk_assign_loop bulk_data agents uuid4 now meter_ids db k = Ok (db', n) ->
  forall m, In m meter_ids -> already_assigned db' m = true.
Proof.
  intros H m Hin.
  apply bulk_assign_loop_Ok in H. destruct H as (created & -> & _ & Hrr & Hcount & _).
  unfold already_assigned. rewrite existing_assignment_app.
  destruct (existing_assignment m db) as [|x xs] eqn:E; [|reflexivity].
  specialize (Hcount m). unfold already_assigned in Hcount. rewrite E in Hcount.
  assert (existsb (N.eqb m) meter_ids = true) as Hreq.
  { apply existsb_exists. exists m. split; [exact Hin|apply N.eqb_refl]. }
  rewrite Hreq in Hcount. simpl in Hcount. unfold count_for in Hcount.
  destruct (filter (fun a => (MeterAssignment.meter_id a =? m)%N) created)
    as [|a rest] eqn:Ef; [discriminate|].
  assert (In a (filter (fun a => (MeterAssignment.meter_id a =? m)%N) created)) as Ha
      by (rewrite Ef; now left).
  apply filter_In in Ha. destruct Ha as [Ha Hm].
  destruct (In_nth_error _ _ Ha) as [j Hj]. apply Hrr in Hj.
  assert (In a (filter (fun a => (MeterAssignment.meter_id a =? m)%N &&
                                 in_ [AssignmentStatus.PENDING; AssignmentStatus.IN_PROGRESS]
                                     (MeterAssignment.status a)) created)) as Hact.
  { apply filter_In. split; [exact Ha|]. rewrite Hm.
    destruct Hj as (Hst & _). rewrite Hst. reflexivity. }
  cbn [app].
  destruct (filter (fun a => (MeterAssignment.meter_id a =? m)%N &&
                             in_ [AssignmentStatus.PENDING; AssignmentStatus.IN_PROGRESS]
                                 (MeterAssignment.status a)) created);
    [destruct Hact|reflexivity].
Qed.

(** X8. Running a bulk request again on the database its first successful
    run left (primary key on assignments, at most one active assignment per
    meter to begin with) succeeds, creates nothing and leaves the database
    as it is: the message reads "Successfully created 0 assignments". *)
Theorem bulk_assign_again_creates_nothing :
  forall uuid4 uuid4' now now' bulk_data db db1 resp1,
    NoDup (map MeterAssignment.id (assignments db)) ->
    one_active_per_meter db ->
    bulk_assign uuid4 now bulk_data db = Ok (db1, resp1) ->
    bulk_assign uuid4' now' bulk_data db1 =
      Ok (db1, {| success := true; data := None;
                  message := Some "Successfully created 0 assignments"%string |}).
Proof.
  intros uuid4 uuid4' now now' bulk_data db db1 resp1 Hpk Hinv H.
  unfold bulk_assign in H.
  destruct (verify_meters (BulkAssignmentRequest.meter_ids bulk_data) db) as [[]|e] eqn:Ev;
    cbn [bind] in H; try discriminate.
  match type of H with
  | bind ?c _ = _ => destruct c as [ags|e] eqn:Eags; cbn [bind] in H; try discriminate
  end.
  destruct (bulk_assign_loop bulk_data ags uuid4 now
              (BulkAssignmentRequest.meter_ids bulk_data) db 0) as [[db2 n]|e] eqn:E;
    cbn [bind] in H; try discriminate.
  inversion H; subst db2 resp1. clear H.
  destruct (bulk_assign_loop_keeps _ _ _ _ _ _ _ _ _ E Hpk Hinv) as [_ Hinv1].
  pose proof (bulk_assign_loop_covers _ _ _ _ _ _ _ _ _ E) as Hcov.
  destruct (bulk_assign_loop_Ok _ _ _ _ _ _ _ _ _ E) as (created & Hdb & _).
  assert (meters db1 = meters db) as Hmeters by (rewrite Hdb; reflexivity).
  assert (agents db1 = agents db) as Hagents by (rewrite Hdb; reflexivity).
  unfold bulk_assign.
  rewrite (verify_meters_same_meters _ db db1 Hmeters), Ev. cbn [bind].
  unfold agent_by_id, available_agents in *. rewrite Hagents, Eags. cbn [bind].
  rewrite (bulk_assign_loop_all_assigned bulk_data ags uuid4' now' _ db1 0 Hinv1 Hcov).
  reflexivity.
Qed.

Lemma bulk_assign_again_creates_nothing_witness :
  bulk_assign (uuid4_from 60) 10 (bulk_request [1; 2; 3]%N None)
    (committed db_B_pending
       (bulk_assign (uuid4_from 30) 9 (bulk_request [1; 2; 3]%N None) db_B_pending)) =
  Ok (committed db_B_pending
        (bulk_assign (uuid4_from 30) 9 (bulk_request [1; 2; 3]%N None) db_B_pending),
      {| success := true; data := None;
         message := Some "Successfully created 0 assignments"%string |}).
Proof.
  apply (bulk_assign_again_creates_nothing (uuid4_from 30) (uuid4_from 60) 9%Z 10%Z
           (bulk_request [1; 2; 3]%N None) db_B_pending
           (committed db_B_pending
              (bulk_assign (uuid4_from 30) 9 (bulk_request [1; 2; 3]%N None) db_B_pending))
           {| success := true; data := None;
              message := Some "Successfully created 2 assignments"%string |}).
  - simpl. repeat constructor; simpl; intuition discriminate.
  - apply one_active_per_meter_b_true. reflexivity.
  - reflexivity.
Defined.

(** ** The two update handlers: what they write and what they leave *)

(** The agents table after [update_assignment] has looked at the load. *)
Lemma update_assignment_Ok_full now assignment_id u db db' resp :
  update_assignment now assignment_id u db = Ok (db', resp) ->
  exists a,
    assignment_by_id assignment_id db = [a] /\
    (is_COMPLETED (MeterAssignmentUpdate.status_attr u) &&
     is_unset (MeterAssignment.completed_at a) = false /\
     db' = flush_assignment (setattr_update u a) db
     \/
     is_COMPLETED (MeterAssignmentUpdate.status_attr u) &&
     is_unset (MeterAssignment.completed_at a) = true /\
     exists dbag,
       db' = flush_assignment
               (MeterAssignment.set_completed_at (Some now) (setattr_update u a)) dbag /\
       assignments dbag = assignments db /\ meters dbag = meters db /\
       approval_requests dbag = approval_requests db /\
       (agents dbag = agents db \/
        exists ag, In ag (agents db) /\ (0 < Agent.current_load ag)%Z /\
                   agents dbag =
                   replace_row Agent.id
                     (Agent.set_current_load (Agent.current_load ag - 1) ag) (agents db))).
Proof.
  unfold update_assignment. intros H.
  destruct (assignment_by_id assignment_id db) as [|a [|a2 rows]]; simpl in H;
    try discriminate.
  exists a. split; [reflexivity|].
  rewrite setattr_update_completed_at in H.
  destruct (is_COMPLETED (MeterAssignmentUpdate.status_attr u)
            && is_unset (MeterAssignment.completed_at a)).
  - right. split; [reflexivity|]. simpl in H.
    destruct (agent_by_id (MeterAssignment.agent_id (setattr_update u a)) db)
      as [|ag [|ag2 ags]] eqn:Eag; simpl in H; try discriminate.
    + destruct (MeterAssignmentUpdate.status u) as [[s|]|]; inversion H; subst;
        exists db; repeat split; auto.
    + assert (In ag (agents db)) as Hin.
      { assert (In ag [ag]) as Hx by now left. rewrite <- Eag in Hx.
        apply filter_In in Hx. tauto. }
      destruct (0 <? Agent.current_load ag)%Z eqn:El; simpl in H;
        destruct (MeterAssignmentUpdate.status u) as [[s|]|]; inversion H; subst.
      * eexists. split; [reflexivity|]. repeat split; auto.
        right. exists ag. apply Z.ltb_lt in El. auto.
      * eexists. split; [reflexivity|]. repeat split; auto.
        right. exists ag. apply Z.ltb_lt in El. auto.
      * exists db. repeat split; auto.
      * exists db. repeat split; auto.
  - left. split; [reflexivity|]. simpl in H.
    destruct (MeterAssignmentUpdate.status u) as [[s|]|]; inversion H; reflexivity.
Qed.

Lemma map_replace_row_same {A B : Type} (key : A -> N) (g : A -> B) (x : A) (l : list A) :
  (forall r, In r l -> key r = key x -> g x = g r) ->
  map g (replace_row key x l) = map g l.
Proof.
  intros H. unfold replace_row. rewrite map_map. apply map_ext_in. intros r Hr.
  destruct (key r =? key x)%N eqn:E; [|reflexivity].
  apply N.eqb_eq in E. auto.
Qed.

Lemma assignment_by_id_only assignment_id db a r :
  assignment_by_id assignment_id db = [a] ->
  In r (assignments db) -> MeterAssignment.id r = assignment_id -> r = a.
Proof.
  intros Ha Hin Hid.
  assert (In r (assignment_by_id assignment_id db)) as H.
  { apply (by_key_In _ MeterAssignment.id). auto. }
  rewrite Ha in H. destruct H as [<-|[]]. reflexivity.
Qed.

(** X9. An [update_assignment] whose status is not completed (cancelled,
    overdue, pending, in_progress, or no status at all) never touches the
    agents table or any [completed_at]: cancelling an assignment does not
    give the agent its load back. *)
Theorem update_assignment_releases_only_on_completed :
  forall now assignment_id u db db' resp,
    MeterAssignmentUpdate.status_attr u <> Some AssignmentStatus.COMPLETED ->
    update_assignment now assignment_id u db = Ok (db', resp) ->
    agents db' = agents db /\
    map MeterAssignment.completed_at (assignments db') =
    map MeterAssignment.completed_at (assignments db).
Proof.
  intros now assignment_id u db db' resp Hu H.
  apply update_assignment_Ok_full in H. destruct H as (a & Ha & [[_ ->]|[Hc _]]).
  - split; [reflexivity|]. simpl.
    apply (map_replace_row_same MeterAssignment.id). intros r Hr Hid.
    rewrite setattr_update_id in Hid. rewrite setattr_update_completed_at.
    pose proof (assignment_by_id_key _ _ _ Ha) as Hk.
    f_equal. symmetry. apply (assignment_by_id_only assignment_id db a r Ha Hr).
    congruence.
  - exfalso. apply andb_true_iff in Hc. destruct Hc as [Hc _].
    destruct (MeterAssignmentUpdate.status_attr u) as [[]|]; simpl in Hc;
      try discriminate. now apply Hu.
Qed.

Lemma update_assignment_releases_only_on_completed_witness :
  agents (committed db_in_progress
            (update_assignment 9 20 (set_status_to AssignmentStatus.CANCELLED)
               db_in_progress)) = agents db_in_progress /\
  map MeterAssignment.completed_at
      (assignments
         (committed db_in_progress
            (update_assignment 9 20 (set_status_to AssignmentStatus.CANCELLED)
               db_in_progress))) =
  map MeterAssignment.completed_at (assignments db_in_progress).
Proof.
  apply (update_assignment_releases_only_on_completed 9%Z 20%N
           (set_status_to AssignmentStatus.CANCELLED) db_in_progress
           (committed db_in_progress
              (update_assignment 9 20 (set_status_to AssignmentStatus.CANCELLED)
                 db_in_progress))
           {| success := true;
              data := Some (sample_assignment 20 1 10 AssignmentStatus.CANCELLED None);
              message := Some "Assignment updated successfully"%string |}).
  - discriminate.
  - reflexivity.
Defined.

Lemma flush_assignment_frame assignment_id a x db :
  assignment_by_id assignment_id db = [a] ->
  update_frame assignment_id a x ->
  Forall2 (update_frame assignment_id) (assignments db)
          (assignments (flush_assignment x db)).
Proof.
  intros Ha Hx. unfold flush_assignment. simpl.
  apply Forall2_map_self. intros r Hr.
  pose proof (assignment_by_id_key _ _ _ Ha) as Hk.
  destruct Hx as (Hid & Hx).
  destruct (MeterAssignment.id r =? MeterAssignment.id x)%N eqn:E.
  - apply N.eqb_eq in E.
    assert (r = a) as -> by (apply (assignment_by_id_only assignment_id db a r Ha Hr);
                            congruence).
    split; [exact Hid|exact Hx].
  - unfold update_frame. repeat split; reflexivity.
Qed.

(** X10. A successful [update_assignment] leaves every other assignment as
    it was and keeps the id, meter, agent and [assigned_at] of the one it
    updates (an assignment cannot be moved to another meter or agent); it
    adds and removes no row and touches no meter and no approval request. *)
Theorem update_assignment_keeps_frame :
  forall now assignment_id u db db' resp,
    update_assignment now assignment_id u db = Ok (db', resp) ->
    Forall2 (update_frame assignment_id) (assignments db) (assignments db') /\
    meters db' = meters db /\
    approval_requests db' = approval_requests db.
Proof.
  intros now assignment_id u db db' resp H.
  apply update_assignment_Ok_full in H.
  destruct H as (a & Ha & [[_ ->]|[_ (dbag & -> & Hasg & Hm & Hr & _)]]).
  - split; [|auto].
    apply (flush_assignment_frame assignment_id a); [exact Ha|].
    unfold update_frame.
    rewrite setattr_update_id, setattr_update_meter_id, setattr_update_agent_id.
    repeat split; auto.
    + unfold setattr_update.
      destruct (MeterAssignmentUpdate.status u) as [[s|]|],
               (MeterAssignmentUpdate.estimated_time u),
               (MeterAssignmentUpdate.completion_notes u); reflexivity.
    + intros Hne. exfalso. apply Hne. exact (assignment_by_id_key _ _ _ Ha).
  - split; [|simpl; auto].
    assert (assignment_by_id assignment_id dbag = [a]) as Ha'
        by (unfold assignment_by_id; rewrite Hasg; exact Ha).
    rewrite <- Hasg.
    apply (flush_assignment_frame assignment_id a); [exact Ha'|].
    unfold update_frame. simpl.
    rewrite setattr_update_id, setattr_update_meter_id, setattr_update_agent_id.
    repeat split; auto.
    + unfold setattr_update.
      destruct (MeterAssignmentUpdate.status u) as [[s|]|],
               (MeterAssignmentUpdate.estimated_time u),
               (MeterAssignmentUpdate.completion_notes u); reflexivity.
    + intros Hne. exfalso. apply Hne. exact (assignment_by_id_key _ _ _ Ha).
Qed.

Lemma update_assignment_keeps_frame_witness :
  Forall2 (update_frame 20) (assignments db_reassigned)
    (assignments
       (committed db_reassigned
          (update_assignment 9 20 (set_status_to AssignmentStatus.OVERDUE) db_reassigned))) /\
  meters
    (committed db_reassigned
       (update_assignment 9 20 (set_status_to AssignmentStatus.OVERDUE) db_reassigned)) =
    meters db_reassigned /\
  approval_requests
    (committed db_reassigned
       (update_assignment 9 20 (set_status_to AssignmentStatus.OVERDUE) db_reassigned)) =
    approval_requests db_reassigned.
Proof.
  apply (update_assignment_keeps_frame 9%Z 20%N (set_status_to AssignmentStatus.OVERDUE)
           db_reassigned
           (committed db_reassigned
              (update_assignment 9 20 (set_status_to AssignmentStatus.OVERDUE) db_reassigned))
           {| success := true;
              data := Some (sample_assignment 20 1 11 AssignmentStatus.OVERDUE (Some 5%Z));
              message := Some "Assignment updated successfully"%string |}).
  reflexivity.
Defined.

(** X11. Once an assignment has a [completed_at], no [update_assignment] on
    it changes that time or the agents table, whatever status and fields
    the update carries: an assignment that was set back to pending and is
    completed again keeps its first completion time and releases no load a
    second time. *)
Theorem update_assignment_completed_at_written_once :
  forall now assignment_id u db db' resp a t,
    In a (assignments db) ->
    MeterAssignment.id a = assignment_id ->
    MeterAssignment.completed_at a = Some t ->
    update_assignment now assignment_id u db = Ok (db', resp) ->
    agents db' = agents db /\
    exists a', assignment_by_id assignment_id db' = [a'] /\
               MeterAssignment.completed_at a' = Some t.
Proof.
  intros now assignment_id u db db' resp a t Hin Hid Ht H.
  apply update_assignment_Ok_full in H. destruct H as (a0 & Ha & H).
  assert (a = a0) as <- by (apply (assignment_by_id_only assignment_id db a0 a Ha Hin Hid)).
  rewrite Ht in H. simpl in H. rewrite andb_false_r in H.
  destruct H as [[_ ->]|[Hc _]]; [|discriminate].
  split; [reflexivity|].
  exists (setattr_update u a). split.
  - apply (assignment_by_id_flush assignment_id a); [exact Ha|apply setattr_update_id].
  - now rewrite setattr_update_completed_at.
Qed.

Lemma update_assignment_completed_at_written_once_witness :
  agents (committed db_reassigned
            (update_assignment 9 20 (set_status_to AssignmentStatus.COMPLETED)
               db_reassigned)) = agents db_reassigned /\
  exists a',
    assignment_by_id 20
      (committed db_reassigned
         (update_assignment 9 20 (set_status_to AssignmentStatus.COMPLETED)
            db_reassigned)) = [a'] /\
    MeterAssignment.completed_at a' = Some 5%Z.
Proof.
  apply (update_assignment_completed_at_written_once 9%Z 20%N
           (set_status_to AssignmentStatus.COMPLETED) db_reassigned
           (committed db_reassigned
              (update_assignment 9 20 (set_status_to AssignmentStatus.COMPLETED)
                 db_reassigned))
           {| success := true;
              data := Some (sample_assignment 20 1 11 AssignmentStatus.COMPLETED (Some 5%Z));
              message := Some "Assignment updated successfully"%string |}
           (sample_assignment 20 1 11 AssignmentStatus.COMPLETED (Some 5%Z)) 5%Z).
  - simpl. auto.
  - reflexivity.
  - reflexivity.
  - reflexivity.
Defined.

Lemma get_current_agent_Ok current_user db agent :
  get_current_agent current_user db = Ok agent ->
  User.role current_user = AGENT /\
  In agent (agents db) /\
  Agent.user_id agent = User.id current_user.
Proof.
  unfold get_current_agent. intros H.
  destruct (User.role current_user); try discriminate.
  destruct (filter (fun a => (Agent.user_id a =? User.id current_user)%N) (agents db))
    as [|x [|y rows]] eqn:E; simpl in H; try discriminate.
  inversion H; subst x.
  assert (In agent [agent]) as Hin by now left.
  rewrite <- E in Hin. apply filter_In in Hin. destruct Hin as [Hin Hu].
  apply N.eqb_eq in Hu. auto.
Qed.

Lemma put_my_assignment_status_Ok_full now current_user assignment_id status
    completion_notes db db' resp :
  put_my_assignment_status now current_user assignment_id status completion_notes db =
    Ok (db', resp) ->
  exists current_agent a,
    get_current_agent current_user db = Ok current_agent /\
    In a (assignments db) /\
    MeterAssignment.id a = assignment_id /\
    MeterAssignment.agent_id a = Agent.id current_agent /\
    (status <> AssignmentStatus.COMPLETED /\
     db' = flush_assignment (MeterAssignment.set_status status a) db
     \/
     status = AssignmentStatus.COMPLETED /\
     exists dbag,
       db' = flush_assignment
               (MeterAssignment.set_completion_notes completion_notes
                  (MeterAssignment.set_completed_at (Some now)
                     (MeterAssignment.set_status status a))) dbag /\
       assignments dbag = assignments db /\ meters dbag = meters db /\
       approval_requests dbag = approval_requests db /\
       (agents dbag = agents db \/
        (0 < Agent.current_load current_agent)%Z /\
        agents dbag =
        replace_row Agent.id
          (Agent.set_current_load (Agent.current_load current_agent - 1) current_agent)
          (agents db))).
Proof.
  unfold put_my_assignment_status. intros H.
  destruct (get_current_agent current_user db) as [current_agent|e] eqn:Eg;
    simpl in H; try discriminate.
  exists current_agent.
  unfold update_my_assignment_status in H.
  match type of H with
  | bind (scalar_one_or_none ?rows) _ = _ =>
      destruct rows as [|a [|a2 rows']] eqn:Erows; simpl in H; try discriminate
  end.
  exists a.
  assert (In a [a]) as Ha by now left. rewrite <- Erows in Ha.
  apply filter_In in Ha. destruct Ha as [Hin Hb].
  apply andb_true_iff in Hb. destruct Hb as [Hid Hag].
  apply N.eqb_eq in Hid. apply N.eqb_eq in Hag.
  split; [reflexivity|]. split; [exact Hin|]. split; [exact Hid|]. split; [exact Hag|].
  destruct (AssignmentStatus.eqb status AssignmentStatus.COMPLETED) eqn:Es.
  - right. apply AssignmentStatus_eqb_eq in Es. split; [exact Es|].
    destruct (0 <? Agent.current_load current_agent)%Z eqn:El; inversion H; subst.
    + eexists. split; [reflexivity|]. repeat split; auto.
      right. apply Z.ltb_lt in El. auto.
    + exists db. repeat split; auto.
  - left. split.
    + intros ->. discriminate.
    + inversion H. reflexivity.
Qed.

(** X12. With a primary key on assignments, a successful
    [update_my_assignment_status] has changed an assignment of the agent
    whose profile belongs to the caller, and only that one: every other
    assignment is as before, the updated one keeps its id, meter, agent and
    [assigned_at], and no meter or approval request is touched. *)
Theorem update_my_assignment_status_own_only :
  forall now current_user assignment_id status completion_notes db db' resp,
    NoDup (map MeterAssignment.id (assignments db)) ->
    put_my_assignment_status now current_user assignment_id status completion_notes db =
      Ok (db', resp) ->
    exists current_agent a,
      get_current_agent current_user db = Ok current_agent /\
      In a (assignments db) /\
      MeterAssignment.id a = assignment_id /\
      MeterAssignment.agent_id a = Agent.id current_agent /\
      Forall2 (update_frame assignment_id) (assignments db) (assignments db') /\
      meters db' = meters db /\
      approval_requests db' = approval_requests db.
Proof.
  intros now current_user assignment_id status completion_notes db db' resp Hpk H.
  apply put_my_assignment_status_Ok_full in H.
  destruct H as (current_agent & a & Hg & Hin & Hid & Hag & H).
  exists current_agent, a. repeat (split; [assumption|]).
  pose proof (by_key_single _ MeterAssignment.id assignment_id (assignments db) a
                Hpk Hin Hid) as Ha.
  change (assignment_by_id assignment_id db = [a]) in Ha.
  destruct H as [[_ ->]|[_ (dbag & -> & Hasg & Hm & Hr & _)]].
  - split; [|auto].
    apply (flush_assignment_frame assignment_id a); [exact Ha|].
    unfold update_frame. simpl. repeat split; auto.
    intros Hne. exfalso. now apply Hne.
  - split; [|simpl; auto].
    assert (assignment_by_id assignment_id dbag = [a]) as Ha'
        by (unfold assignment_by_id; rewrite Hasg; exact Ha).
    rewrite <- Hasg.
    apply (flush_assignment_frame assignment_id a); [exact Ha'|].
    unfold update_frame. simpl. repeat split; auto.
    intros Hne. exfalso. now apply Hne.
Qed.

Lemma update_my_assignment_status_own_only_witness :
  exists current_agent a,
    get_current_agent user_x db_reassigned = Ok current_agent /\
    In a (assignments db_reassigned) /\
    MeterAssignment.id a = 21%N /\
    MeterAssignment.agent_id a = Agent.id current_agent /\
    Forall2 (update_frame 21) (assignments db_reassigned)
      (assignments
         (committed db_reassigned
            (put_my_assignment_status 9 user_x 21 AssignmentStatus.IN_PROGRESS None
               db_reassigned))) /\
    meters
      (committed db_reassigned
         (put_my_assignment_status 9 user_x 21 AssignmentStatus.IN_PROGRESS None
            db_reassigned)) = meters db_reassigned /\
    approval_requests
      (committed db_reassigned
         (put_my_assignment_status 9 user_x 21 AssignmentStatus.IN_PROGRESS None
            db_reassigned)) = approval_requests db_reassigned.
Proof.
  apply (update_my_assignment_status_own_only 9%Z user_x 21%N
           AssignmentStatus.IN_PROGRESS None db_reassigned
           (committed db_reassigned
              (put_my_assignment_status 9 user_x 21 AssignmentStatus.IN_PROGRESS None
                 db_reassigned))
           {| success := true; data := None;
              message := Some "Assignment status updated successfully"%string |}).
  - simpl. repeat constructor; simpl; intuition discriminate.
  - reflexivity.
Defined.

(** X13. With a primary key on assignments, a successful
    [update_my_assignment_status] whose status is not completed stores
    nothing but the status: the [completion_notes] sent with it are
    dropped, no [completed_at] changes and the agents table is as before
    (reporting an assignment cancelled releases no load). *)
Theorem update_my_assignment_status_notes_only_on_completed :
  forall now current_user assignment_id status completion_notes db db' resp,
    NoDup (map MeterAssignment.id (assignments db)) ->
    status <> AssignmentStatus.COMPLETED ->
    put_my_assignment_status now current_user assignment_id status completion_notes db =
      Ok (db', resp) ->
    agents db' = agents db /\
    map MeterAssignment.completion_notes (assignments db') =
      map MeterAssignment.completion_notes (assignments db) /\
    map MeterAssignment.completed_at (assignments db') =
      map MeterAssignment.completed_at (assignments db).
Proof.
  intros now current_user assignment_id status completion_notes db db' resp Hpk Hs H.
  apply put_my_assignment_status_Ok_full in H.
  destruct H as (current_agent & a & Hg & Hin & Hid & Hag & H).
  pose proof (by_key_single _ MeterAssignment.id assignment_id (assignments db) a
                Hpk Hin Hid) as Ha.
  change (assignment_by_id assignment_id db = [a]) in Ha.
  destruct H as [[_ ->]|[Hc _]]; [|contradiction].
  split; [reflexivity|].
  change (assignments (flush_assignment (MeterAssignment.set_status status a) db))
    with (replace_row MeterAssignment.id (MeterAssignment.set_status status a)
            (assignments db)).
  split; apply (map_replace_row_same MeterAssignment.id); intros r Hr Hk; simpl in *;
    f_equal; symmetry; apply (assignment_by_id_only assignment_id db a r Ha Hr);
    congruence.
Qed.

Lemma update_my_assignment_status_notes_only_on_completed_witness :
  agents
    (committed db_in_progress
       (put_my_assignment_status 9 user_x 20 AssignmentStatus.CANCELLED
          (Some "gate locked"%string) db_in_progress)) = agents db_in_progress /\
  map MeterAssignment.completion_notes
    (assignments
       (committed db_in_progress
          (put_my_assignment_status 9 user_x 20 AssignmentStatus.CANCELLED
             (Some "gate locked"%string) db_in_progress))) =
    map MeterAssignment.completion_notes (assignments db_in_progress) /\
  map MeterAssignment.completed_at
    (assignments
       (committed db_in_progress
          (put_my_assignment_status 9 user_x 20 AssignmentStatus.CANCELLED
             (Some "gate locked"%string) db_in_progress))) =
    map MeterAssignment.completed_at (assignments db_in_progress).
Proof.
  apply (update_my_assignment_status_notes_only_on_completed 9%Z user_x 20%N
           AssignmentStatus.CANCELLED (Some "gate locked"%string) db_in_progress
           (committed db_in_progress
              (put_my_assignment_status 9 user_x 20 AssignmentStatus.CANCELLED
                 (Some "gate locked"%string) db_in_progress))
           {| success := true; data := None;
              message := Some "Assignment status updated successfully"%string |}).
  - simpl. repeat constructor; simpl; intuition discriminate.
  - discriminate.
  - reflexivity.
Defined.

(** ** What no sequence of engine requests does *)

Lemma Forall_replace_row {A : Type} (key : A -> N) (P : A -> Prop) (x : A) (l : list A) :
  Forall P l -> P x -> Forall P (replace_row key x l).
Proof.
  intros Hl Hx. unfold replace_row. apply Forall_forall. intros r Hr.
  apply in_map_iff in Hr. destruct Hr as (y & Hy & Hin).
  destruct (key y =? key x)%N; subst; [exact Hx|].
  rewrite Forall_forall in Hl. now apply Hl.
Qed.

Lemma step_keeps_loads_nonnegative db op :
  loads_nonnegative db -> loads_nonnegative (step db op).
Proof.
  unfold loads_nonnegative. intros Hl.
  destruct op as [uuid4 now assignment_data|uuid4 now bulk_data
                 |now assignment_id u|now current_user assignment_id status notes];
    simpl.
  - destruct (create_assignment uuid4 now assignment_data db) as [[db' resp]|e] eqn:E;
      simpl; [|exact Hl].
    apply create_assignment_Ok in E.
    destruct E as (new & agent & _ & _ & Hag & _ & _ & ->).
    apply (Forall_replace_row Agent.id _
             (Agent.set_current_load (Agent.current_load agent + 1) agent)
             (agents db)); [exact Hl|]. simpl.
    assert (In agent (agents db)) as Hin.
    { assert (In agent [agent]) as Hx by now left. rewrite <- Hag in Hx.
      apply filter_In in Hx. tauto. }
    rewrite Forall_forall in Hl. specialize (Hl agent Hin). simpl in Hl. lia.
  - destruct (bulk_assign uuid4 now bulk_data db) as [[db' resp]|e] eqn:E;
      simpl; [|exact Hl].
    destruct (bulk_assign_keeps_agents _ _ _ _ _ _ E) as (-> & _). exact Hl.
  - destruct (update_assignment now assignment_id u db) as [[db' resp]|e] eqn:E;
      simpl; [|exact Hl].
    apply update_assignment_Ok_full in E.
    destruct E as (a & _ & [[_ ->]|[_ (dbag & -> & _ & _ & _ & [Hag|(ag & Hin & Hpos & Hag)])]]);
      simpl; try exact Hl; rewrite Hag; [exact Hl|].
    apply (Forall_replace_row Agent.id); [exact Hl|]. simpl. lia.
  - destruct (put_my_assignment_status now current_user assignment_id status notes db)
      as [[db' resp]|e] eqn:E; simpl; [|exact Hl].
    apply put_my_assignment_status_Ok_full in E.
    destruct E as (ag & a & _ & _ & _ & _ &
                   [[_ ->]|[_ (dbag & -> & _ & _ & _ & [Hag|(Hpos & Hag)])]]);
      simpl; try exact Hl; rewrite Hag; [exact Hl|].
    apply (Forall_replace_row Agent.id); [exact Hl|]. simpl. lia.
Qed.

(** X14. If no agent has a negative [current_load], then after any sequence
    of CreateAssignment, BulkAssign, UpdateAssignment and
    UpdateOwnAssignmentStatus requests, failed ones included, no agent has
    a negative [current_load]. *)
Theorem run_keeps_loads_nonnegative :
  forall ops db,
    loads_nonnegative db -> loads_nonnegative (run db ops).
Proof.
  induction ops as [|op ops IH]; intros db H; simpl; [exact H|].
  apply IH. now apply step_keeps_loads_nonnegative.
Qed.

Lemma run_keeps_loads_nonnegative_witness :
  loads_nonnegative (run db_ABC sample_day).
Proof.
  apply (run_keeps_loads_nonnegative sample_day db_ABC).
  unfold loads_nonnegative. simpl. repeat constructor; simpl; lia.
Defined.



(** ** Approval workflow: submitting, reading, and who may review what *)

Lemma add_request_fresh r db :
  ~ In (MeterApprovalRequest.id r) (map MeterApprovalRequest.id (approval_requests db)) ->
  add_request r db = Ok (with_approval_requests (approval_requests db ++ [r]) db).
Proof.
  intros Hnin. unfold add_request.
  destruct (existsb (fun x => (MeterApprovalRequest.id x =? MeterApprovalRequest.id r)%N)
                    (approval_requests db)) eqn:E; [|reflexivity].
  exfalso. apply Hnin. apply existsb_exists in E. destruct E as (x & Hin & Hx).
  apply N.eqb_eq in Hx. rewrite <- Hx. now apply in_map.
Qed.

Lemma add_request_Ok r db db1 :
  add_request r db = Ok db1 ->
  db1 = with_approval_requests (approval_requests db ++ [r]) db /\
  ~ In (MeterApprovalRequest.id r) (map MeterApprovalRequest.id (approval_requests db)).
Proof.
  unfold add_request.
  destruct (existsb (fun x => (MeterApprovalRequest.id x =? MeterApprovalRequest.id r)%N)
                    (approval_requests db)) eqn:E; intros H; inversion H.
  split; [reflexivity|].
  intros Hin. apply in_map_iff in Hin. destruct Hin as (x & Hx & Hin).
  assert (existsb (fun x => (MeterApprovalRequest.id x =? MeterApprovalRequest.id r)%N)
                  (approval_requests db) = true) as Ht.
  { apply existsb_exists. exists x. split; [exact Hin|]. now apply N.eqb_eq. }
  congruence.
Qed.

(** X16. With a primary key on meters and a fresh id, submitting an approval
    request fails with 404 "Meter not found" when the meter is unknown and
    succeeds otherwise, whether or not the agent has an assignment for the
    meter or already has a request open for it.  On success exactly one row
    is appended: pending, for the given meter and the submitting agent,
    carrying the submitted data and notes, with [submitted_at] the time of
    the call and no reviewer, review notes or review time; it is returned,
    and nothing else changes. *)
Theorem create_approval_request_outcome :
  forall uuid4 now request_data current_agent db,
    NoDup (map Meter.id (meters db)) ->
    ~ In uuid4 (map MeterApprovalRequest.id (approval_requests db)) ->
    (~ In (MeterApprovalRequestCreate.meter_id request_data) (map Meter.id (meters db)) ->
     create_approval_request uuid4 now request_data current_agent db =
       Err (HTTPException HTTP_404_NOT_FOUND "Meter not found")) /\
    (In (MeterApprovalRequestCreate.meter_id request_data) (map Meter.id (meters db)) ->
     exists new,
       new = {| MeterApprovalRequest.id := uuid4;
                MeterApprovalRequest.meter_id :=
                  MeterApprovalRequestCreate.meter_id request_data;
                MeterApprovalRequest.agent_id := Agent.id current_agent;
                MeterApprovalRequest.reviewer_id := None;
                MeterApprovalRequest.meter_data :=
                  MeterApprovalRequestCreate.meter_data request_data;
                MeterApprovalRequest.status := ApprovalStatus.PENDING;
                MeterApprovalRequest.submission_notes :=
                  MeterApprovalRequestCreate.submission_notes request_data;
                MeterApprovalRequest.review_notes := None;
                MeterApprovalRequest.submitted_at := Some now;
                MeterApprovalRequest.reviewed_at := None |} /\
       create_approval_request uuid4 now request_data current_agent db =
         Ok (with_approval_requests (approval_requests db ++ [new]) db,
             {| success := true; data := Some new;
                message := Some "Approval request submitted successfully"%string |})).
Proof.
  intros uuid4 now request_data current_agent db Hm Hfresh.
  unfold create_approval_request, meter_by_id.
  change (filter (fun m => (Meter.id m =? MeterApprovalRequestCreate.meter_id request_data)%N)
                 (meters db))
    with (by_key Meter.id (MeterApprovalRequestCreate.meter_id request_data) (meters db)).
  split.
  - intros Hnin. rewrite (by_key_absent _ Meter.id) by exact Hnin. reflexivity.
  - intros Hin. destruct (by_key_present Meter.id _ _ Hm Hin) as [m ->].
    cbn [scalar_one_or_none bind].
    eexists. split; [reflexivity|].
    rewrite add_request_fresh by exact Hfresh. reflexivity.
Qed.

Lemma create_approval_request_outcome_witness :
  exists new,
    new = {| MeterApprovalRequest.id := 51;
             MeterApprovalRequest.meter_id := 1;
             MeterApprovalRequest.agent_id := 10;
             MeterApprovalRequest.reviewer_id := None;
             MeterApprovalRequest.meter_data := JObj [("meter_type"%string, JStr "digital")];
             MeterApprovalRequest.status := ApprovalStatus.PENDING;
             MeterApprovalRequest.submission_notes := Some "dial replaced"%string;
             MeterApprovalRequest.review_notes := None;
             MeterApprovalRequest.submitted_at := Some 8%Z;
             MeterApprovalRequest.reviewed_at := None |} /\
    create_approval_request 51 8 sample_submission (agent_X 0) db_review =
      Ok (with_approval_requests (approval_requests db_review ++ [new]) db_review,
          {| success := true; data := Some new;
             message := Some "Approval request submitted successfully"%string |}).
Proof.
  refine (proj2 (create_approval_request_outcome 51%N 8%Z sample_submission (agent_X 0)
                   db_review _ _) _).
  - simpl. repeat constructor; simpl; intuition discriminate.
  - simpl. intuition discriminate.
  - simpl. auto.
Defined.

Lemma create_approval_request_Ok uuid4 now request_data current_agent db db' resp :
  create_approval_request uuid4 now request_data current_agent db = Ok (db', resp) ->
  exists new,
    data resp = Some new /\
    MeterApprovalRequest.id new = uuid4 /\
    MeterApprovalRequest.status new = ApprovalStatus.PENDING /\
    ~ In uuid4 (map MeterApprovalRequest.id (approval_requests db)) /\
    db' = with_approval_requests (approval_requests db ++ [new]) db.
Proof.
  unfold create_approval_request. intros H.
  destruct (meter_by_id (MeterApprovalRequestCreate.meter_id request_data) db)
    as [|m [|m' ms]]; simpl in H; try discriminate.
  match type of H with
  | bind (add_request ?r db) _ = _ =>
      destruct (add_request r db) as [db1|e] eqn:Eadd; simpl in H; try discriminate;
      apply add_request_Ok in Eadd; destruct Eadd as [-> Hfresh]; exists r
  end.
  inversion H; subst. auto.
Qed.

Lemma request_by_id_added request_id new db :
  request_by_id request_id (with_approval_requests (approval_requests db ++ [new]) db) =
  request_by_id request_id db ++
  (if (MeterApprovalRequest.id new =? request_id)%N then [new] else []).
Proof.
  unfold request_by_id. simpl. rewrite filter_app. simpl.
  destruct (MeterApprovalRequest.id new =? request_id)%N; reflexivity.
Qed.

(** X17. A request that was submitted can be read back: after a successful
    [create_approval_request], [get_approval_request] on the new id returns
    the row the submission returned, and on every other id it answers as
    it did before. *)
Theorem submitted_request_is_read_back :
  forall uuid4 now request_data current_agent db db' resp,
    create_approval_request uuid4 now request_data current_agent db = Ok (db', resp) ->
    get_approval_request uuid4 db' =
      Ok {| success := true; data := data resp; message := None |} /\
    forall request_id, request_id <> uuid4 ->
      get_approval_request request_id db' = get_approval_request request_id db.
Proof.
  intros uuid4 now request_data current_agent db db' resp H.
  apply create_approval_request_Ok in H.
  destruct H as (new & Hdata & Hid & _ & Hfresh & ->).
  unfold get_approval_request. split.
  - rewrite request_by_id_added, Hid, N.eqb_refl.
    unfold request_by_id.
    change (filter (fun r => (MeterApprovalRequest.id r =? uuid4)%N) (approval_requests db))
      with (by_key MeterApprovalRequest.id uuid4 (approval_requests db)).
    rewrite by_key_absent by exact Hfresh. simpl. now rewrite Hdata.
  - intros request_id Hne. rewrite request_by_id_added, Hid.
    destruct (uuid4 =? request_id)%N eqn:E.
    + apply N.eqb_eq in E. congruence.
    + now rewrite app_nil_r.
Qed.

Lemma submitted_request_is_read_back_witness :
  get_approval_request 51
    (committed db_review
       (create_approval_request 51 8 sample_submission (agent_X 0) db_review)) =
    Ok {| success := true;
          data := nth_error
                    (approval_requests
                       (committed db_review
                          (create_approval_request 51 8 sample_submission (agent_X 0)
                             db_review))) 1;
          message := None |} /\
  forall request_id, request_id <> 51%N ->
    get_approval_request request_id
      (committed db_review
         (create_approval_request 51 8 sample_submission (agent_X 0) db_review)) =
    get_approval_request request_id db_review.
Proof.
  apply (submitted_request_is_read_back 51%N 8%Z sample_submission (agent_X 0) db_review
           (committed db_review
              (create_approval_request 51 8 sample_submission (agent_X 0) db_review))
           {| success := true;
              data := nth_error
                        (approval_requests
                           (committed db_review
                              (create_approval_request 51 8 sample_submission (agent_X 0)
                                 db_review))) 1;
              message := Some "Approval request submitted successfully"%string |}).
  reflexivity.
Defined.

(** X18. Submit, review, read: a request that was just submitted can be
    approved, or rejected, by any reviewer; reading
    it afterwards shows what was submitted, unchanged, with the status set
    to approved or rejected, the reviewer's id, the review notes and the
    time of the review. *)
Theorem submitted_request_is_reviewed :
  forall uuid4 now request_data current_agent db db1 resp new,
    create_approval_request uuid4 now request_data current_agent db = Ok (db1, resp) ->
    data resp = Some new ->
    forall now' reviewer,
      (forall notes, exists db2 resp2,
          approve_request now' reviewer uuid4 notes db1 = Ok (db2, resp2) /\
          get_approval_request uuid4 db2 =
            Ok {| success := true;
                  data := Some (MeterApprovalRequest.set_review ApprovalStatus.APPROVED
                                  (User.id reviewer) notes now' new);
                  message := None |}) /\
      (forall notes, exists db2 resp2,
          reject_request now' reviewer uuid4 notes db1 = Ok (db2, resp2) /\
          get_approval_request uuid4 db2 =
            Ok {| success := true;
                  data := Some (MeterApprovalRequest.set_review ApprovalStatus.REJECTED
                                  (User.id reviewer) (Some notes) now' new);
                  message := None |}).
Proof.
  intros uuid4 now request_data current_agent db db1 resp new H Hdata now' reviewer.
  apply create_approval_request_Ok in H.
  destruct H as (new' & Hdata' & Hid & Hst & Hfresh & ->).
  rewrite Hdata in Hdata'. inversion Hdata'; subst new'. clear Hdata'.
  assert (request_by_id uuid4
            (with_approval_requests (approval_requests db ++ [new]) db) = [new]) as Hr.
  { rewrite request_by_id_added, Hid, N.eqb_refl. unfold request_by_id.
    change (filter (fun r => (MeterApprovalRequest.id r =? uuid4)%N) (approval_requests db))
      with (by_key MeterApprovalRequest.id uuid4 (approval_requests db)).
    rewrite by_key_absent by exact Hfresh. reflexivity. }
  split; intros notes.
  - unfold approve_request. rewrite Hr. cbn [scalar_one_or_none bind]. rewrite Hst.
    cbn [ApprovalStatus.eqb negb].
    eexists. eexists. split; [reflexivity|].
    unfold get_approval_request.
    rewrite (request_by_id_flush uuid4 new); [reflexivity|exact Hr|reflexivity].
  - unfold reject_request. rewrite Hr. cbn [scalar_one_or_none bind]. rewrite Hst.
    cbn [ApprovalStatus.eqb negb].
    eexists. eexists. split; [reflexivity|].
    unfold get_approval_request.
    rewrite (request_by_id_flush uuid4 new); [reflexivity|exact Hr|reflexivity].
Qed.

Lemma submitted_request_is_reviewed_witness :
  (forall notes, exists db2 resp2,
      approve_request 9 manager 51 notes
        (committed db_review
           (create_approval_request 51 8 sample_submission (agent_X 0) db_review)) =
        Ok (db2, resp2) /\
      get_approval_request 51 db2 =
        Ok {| success := true;
              data := Some (MeterApprovalRequest.set_review ApprovalStatus.APPROVED
                              (User.id manager) notes 9 sample_submitted);
              message := None |}) /\
  (forall notes, exists db2 resp2,
      reject_request 9 manager 51 notes
        (committed db_review
           (create_approval_request 51 8 sample_submission (agent_X 0) db_review)) =
        Ok (db2, resp2) /\
      get_approval_request 51 db2 =
        Ok {| success := true;
              data := Some (MeterApprovalRequest.set_review ApprovalStatus.REJECTED
                              (User.id manager) (Some notes) 9 sample_submitted);
              message := None |}).
Proof.
  apply (submitted_request_is_reviewed 51%N 8%Z sample_submission (agent_X 0) db_review
           (committed db_review
              (create_approval_request 51 8 sample_submission (agent_X 0) db_review))
           {| success := true; data := Some sample_submitted;
              message := Some "Approval request submitted successfully"%string |}
           sample_submitted eq_refl eq_refl 9%Z manager).
Defined.

(** X19. With a primary key on requests, what the three handlers answer
    for an id is decided by the row alone.  No row: approve, reject and get
    all fail with 404 "Approval request not found".  A row that is not
    pending (approved, rejected, or under review): get returns it, approve
    and reject fail with 400 "Request is not pending approval", so a request
    under review can never be decided.  A pending row: get returns it, and
    approve and reject both succeed, for any reviewer and any notes. *)
Theorem review_outcome :
  forall now current_user request_id db,
    NoDup (map MeterApprovalRequest.id (approval_requests db)) ->
    (~ In request_id (map MeterApprovalRequest.id (approval_requests db)) ->
     get_approval_request request_id db =
       Err (HTTPException HTTP_404_NOT_FOUND "Approval request not found") /\
     (forall notes, approve_request now current_user request_id notes db =
        Err (HTTPException HTTP_404_NOT_FOUND "Approval request not found")) /\
     (forall notes, reject_request now current_user request_id notes db =
        Err (HTTPException HTTP_404_NOT_FOUND "Approval request not found"))) /\
    (forall r, In r (approval_requests db) -> MeterApprovalRequest.id r = request_id ->
       get_approval_request request_id db =
         Ok {| success := true; data := Some r; message := None |} /\
       (MeterApprovalRequest.status r <> ApprovalStatus.PENDING ->
        (forall notes, approve_request now current_user request_id notes db =
           Err (HTTPException HTTP_400_BAD_REQUEST "Request is not pending approval")) /\
        (forall notes, reject_request now current_user request_id notes db =
           Err (HTTPException HTTP_400_BAD_REQUEST "Request is not pending approval"))) /\
       (MeterApprovalRequest.status r = ApprovalStatus.PENDING ->
        (forall notes, exists db' resp,
            approve_request now current_user request_id notes db = Ok (db', resp)) /\
        (forall notes, exists db' resp,
            reject_request now current_user request_id notes db = Ok (db', resp)))).
Proof.
  intros now current_user request_id db Hpk. split.
  - intros Hnin.
    assert (request_by_id request_id db = []) as E
        by (apply (by_key_absent _ MeterApprovalRequest.id); exact Hnin).
    unfold get_approval_request, approve_request, reject_request. rewrite E.
    repeat split; reflexivity.
  - intros r Hin Hid.
    assert (request_by_id request_id db = [r]) as E
        by (apply (by_key_single _ MeterApprovalRequest.id); assumption).
    unfold get_approval_request, approve_request, reject_request. rewrite E.
    cbn [scalar_one_or_none bind].
    split; [reflexivity|]. split.
    + intros Hs.
      destruct (MeterApprovalRequest.status r); try congruence;
        split; intros notes; reflexivity.
    + intros ->. cbn [ApprovalStatus.eqb negb]. split; intros notes; eauto.
Qed.

Lemma review_outcome_witness :
  (forall notes, approve_request 9 admin 50 notes db_under_review =
     Err (HTTPException HTTP_400_BAD_REQUEST "Request is not pending approval")) /\
  (forall notes, reject_request 9 admin 50 notes db_under_review =
     Err (HTTPException HTTP_400_BAD_REQUEST "Request is not pending approval")).
Proof.
  refine (proj1 (proj2 (proj2 (review_outcome 9%Z admin 50%N db_under_review _)
                          request_under_review _ _)) _).
  - simpl. repeat constructor; simpl; intuition discriminate.
  - simpl. auto.
  - reflexivity.
  - discriminate.
Defined.

(** ** Who is let in *)

(** X20. The three role guards return the caller unchanged or fail with
    403.  [require_role r] admits the users whose role is r and every
    admin, so an admin passes a requirement for any role, agent included;
    [require_admin] admits admins only; and [require_manager_or_admin]
    admits exactly those [require_role MANAGER] admits. *)
Theorem role_guards_admit :
  forall current_user,
    (forall required_role,
        (require_role required_role current_user = Ok current_user <->
         User.role current_user = required_role \/ User.role current_user = ADMIN) /\
        (require_role required_role current_user <> Ok current_user ->
         require_role required_role current_user =
         Err (HTTPException HTTP_403_FORBIDDEN
                ("Access denied. Required role: " ++ UserRole_value required_role)%string))) /\
    (require_admin current_user = Ok current_user <-> User.role current_user = ADMIN) /\
    (require_manager_or_admin current_user = Ok current_user <->
     require_role MANAGER current_user = Ok current_user) /\
    (require_manager_or_admin current_user <> Ok current_user ->
     require_manager_or_admin current_user =
     Err (HTTPException HTTP_403_FORBIDDEN
            "Access denied. Manager or admin role required")).
Proof.
  intros [uid uname urole]. unfold require_role, require_admin, require_manager_or_admin.
  simpl. split; [|split; [|split]].
  - intros required_role. destruct urole, required_role; simpl; split;
      try (split; intros H; try discriminate; auto;
           destruct H as [H|H]; discriminate);
      intros H; try reflexivity; exfalso; now apply H.
  - destruct urole; simpl; split; intros H; try discriminate; reflexivity.
  - destruct urole; simpl; split; intros H; try discriminate; reflexivity.
  - destruct urole; simpl; intros H; try reflexivity; exfalso; now apply H.
Qed.

(** X21. The routes that resolve the caller's agent profile are closed to
    everyone whose role is not agent, admins and managers included:
    [get_current_agent] fails with 403 "User is not an agent", and so do
    the own-assignment status update, the own-status update and the
    submission of an approval request, which leave the database as it
    was.  For a user of role agent with no agent row they fail with 404
    "Agent profile not found". *)
Theorem agent_routes_need_an_agent :
  forall current_user db,
    (User.role current_user <> AGENT ->
     get_current_agent current_user db =
       Err (HTTPException HTTP_403_FORBIDDEN "User is not an agent") /\
     (forall now assignment_id status notes,
         put_my_assignment_status now current_user assignment_id status notes db =
         Err (HTTPException HTTP_403_FORBIDDEN "User is not an agent")) /\
     (forall status,
         put_my_status current_user status db =
         Err (HTTPException HTTP_403_FORBIDDEN "User is not an agent")) /\
     (forall uuid4 now request_data,
         post_approval_request uuid4 now current_user request_data db =
         Err (HTTPException HTTP_403_FORBIDDEN "User is not an agent"))) /\
    (User.role current_user = AGENT ->
     ~ In (User.id current_user) (map Agent.user_id (agents db)) ->
     get_current_agent current_user db =
       Err (HTTPException HTTP_404_NOT_FOUND "Agent profile not found") /\
     (forall now assignment_id status notes,
         put_my_assignment_status now current_user assignment_id status notes db =
         Err (HTTPException HTTP_404_NOT_FOUND "Agent profile not found")) /\
     (forall status,
         put_my_status current_user status db =
         Err (HTTPException HTTP_404_NOT_FOUND "Agent profile not found")) /\
     (forall uuid4 now request_data,
         post_approval_request uuid4 now current_user request_data db =
         Err (HTTPException HTTP_404_NOT_FOUND "Agent profile not found"))).
Proof.
  intros current_user db. split.
  - intros Hrole.
    assert (get_current_agent current_user db =
            Err (HTTPException HTTP_403_FORBIDDEN "User is not an agent")) as H.
    { unfold get_current_agent. destruct (User.role current_user); congruence. }
    unfold put_my_assignment_status, put_my_status, post_approval_request.
    rewrite H. repeat split; reflexivity.
  - intros Hrole Hnin.
    assert (get_current_agent current_user db =
            Err (HTTPException HTTP_404_NOT_FOUND "Agent profile not found")) as H.
    { unfold get_current_agent. rewrite Hrole.
      change (filter (fun a => (Agent.user_id a =? User.id current_user)%N) (agents db))
        with (by_key Agent.user_id (User.id current_user) (agents db)).
      rewrite by_key_absent by exact Hnin. reflexivity. }
    unfold put_my_assignment_status, put_my_status, post_approval_request.
    rewrite H. repeat split; reflexivity.
Qed.

Lemma agent_routes_need_an_agent_witness :
  get_current_agent admin db_in_progress =
    Err (HTTPException HTTP_403_FORBIDDEN "User is not an agent") /\
  (forall now assignment_id status notes,
      put_my_assignment_status now admin assignment_id status notes db_in_progress =
      Err (HTTPException HTTP_403_FORBIDDEN "User is not an agent")) /\
  (forall status,
      put_my_status admin status db_in_progress =
      Err (HTTPException HTTP_403_FORBIDDEN "User is not an agent")) /\
  (forall uuid4 now request_data,
      post_approval_request uuid4 now admin request_data db_in_progress =
      Err (HTTPException HTTP_403_FORBIDDEN "User is not an agent")).
Proof.
  apply (proj1 (agent_routes_need_an_agent admin db_in_progress)).
  discriminate.
Defined.

(** ** An agent's own status *)

Lemma get_current_agent_by_id current_user db agent :
  NoDup (map Agent.id (agents db)) ->
  get_current_agent current_user db = Ok agent ->
  agent_by_id (Agent.id agent) db = [agent].
Proof.
  intros Hpk H. apply get_current_agent_Ok in H. destruct H as (_ & Hin & _).
  now apply (by_key_single _ Agent.id).
Qed.

(** X22. With a primary key on agents, a successful own-status update
    writes the new status to the caller's agent row and nothing else: the
    row keeps its load and max load, every other agent row, every
    assignment, meter and approval request is as before.  If the new status
    is not available, [get_available_agents] no longer lists the agent. *)
Theorem update_my_status_effect :
  forall current_user status db db' resp,
    NoDup (map Agent.id (agents db)) ->
    put_my_status current_user status db = Ok (db', resp) ->
    exists current_agent,
      get_current_agent current_user db = Ok current_agent /\
      agent_by_id (Agent.id current_agent) db' = [agent_with_status status current_agent] /\
      (forall agent_id, agent_id <> Agent.id current_agent ->
                        agent_by_id agent_id db' = agent_by_id agent_id db) /\
      map Agent.current_load (agents db') = map Agent.current_load (agents db) /\
      assignments db' = assignments db /\
      meters db' = meters db /\
      approval_requests db' = approval_requests db /\
      (status <> AVAILABLE ->
       forall ags,
         get_available_agents db' =
           Ok {| success := true; data := Some ags; message := None |} ->
         ~ In (Agent.id current_agent) (map Agent.id ags)).
Proof.
  intros current_user status db db' resp Hpk H.
  unfold put_my_status in H.
  destruct (get_current_agent current_user db) as [current_agent|e] eqn:Eg;
    simpl in H; try discriminate.
  unfold update_my_status in H. inversion H; subst db' resp. clear H.
  exists current_agent. split; [reflexivity|].
  pose proof (get_current_agent_by_id _ _ _ Hpk Eg) as Hrow.
  assert (forall r, In r (agents db) -> Agent.id r = Agent.id current_agent ->
                    r = current_agent) as Honly.
  { intros r Hr Hid.
    assert (In r (agent_by_id (Agent.id current_agent) db)) as Hx
        by (apply (by_key_In _ Agent.id); auto).
    rewrite Hrow in Hx. destruct Hx as [<-|[]]. reflexivity. }
  split; [|split; [|split; [|split; [|split; [|split]]]]]; try reflexivity.
  - apply (agent_by_id_flush _ current_agent); [exact Hrow|reflexivity].
  - intros agent_id Hne. unfold agent_by_id, flush_agent. simpl.
    change (by_key Agent.id agent_id
              (replace_row Agent.id (agent_with_status status current_agent) (agents db)) =
            by_key Agent.id agent_id (agents db)).
    rewrite by_key_replace_row. simpl.
    destruct (Agent.id current_agent =? agent_id)%N eqn:E; [|reflexivity].
    apply N.eqb_eq in E. congruence.
  - change (agents (flush_agent (agent_with_status status current_agent) db))
      with (replace_row Agent.id (agent_with_status status current_agent) (agents db)).
    apply (map_replace_row_same Agent.id). intros r Hr Hid. simpl in *.
    f_equal. symmetry. now apply Honly.
  - intros Hs ags Hav Hin.
    unfold get_available_agents in Hav. injection Hav as Hags. subst ags.
    apply in_map_iff in Hin. destruct Hin as (x & Hx & Hin).
    apply filter_In in Hin. destruct Hin as [Hin Hp].
    simpl in Hin. apply in_map_iff in Hin. destruct Hin as (r & Hr & Hin).
    simpl in Hr.
    destruct (Agent.id r =? Agent.id current_agent)%N eqn:E; subst x.
    + simpl in Hp. destruct status; simpl in Hp; try discriminate.
      now apply Hs.
    + apply N.eqb_neq in E. congruence.
Qed.

Lemma update_my_status_effect_witness :
  exists current_agent,
    get_current_agent user_x db_ABC = Ok current_agent /\
    agent_by_id (Agent.id current_agent)
      (committed db_ABC (put_my_status user_x ON_BREAK db_ABC)) =
      [agent_with_status ON_BREAK current_agent] /\
    (forall agent_id, agent_id <> Agent.id current_agent ->
       agent_by_id agent_id (committed db_ABC (put_my_status user_x ON_BREAK db_ABC)) =
       agent_by_id agent_id db_ABC) /\
    map Agent.current_load
        (agents (committed db_ABC (put_my_status user_x ON_BREAK db_ABC))) =
      map Agent.current_load (agents db_ABC) /\
    assignments (committed db_ABC (put_my_status user_x ON_BREAK db_ABC)) =
      assignments db_ABC /\
    meters (committed db_ABC (put_my_status user_x ON_BREAK db_ABC)) = meters db_ABC /\
    approval_requests (committed db_ABC (put_my_status user_x ON_BREAK db_ABC)) =
      approval_requests db_ABC /\
    (ON_BREAK <> AVAILABLE ->
     forall ags,
       get_available_agents (committed db_ABC (put_my_status user_x ON_BREAK db_ABC)) =
         Ok {| success := true; data := Some ags; message := None |} ->
       ~ In (Agent.id current_agent) (map Agent.id ags)).
Proof.
  apply (update_my_status_effect user_x ON_BREAK db_ABC
           (committed db_ABC (put_my_status user_x ON_BREAK db_ABC))
           {| success := true; data := None;
              message := Some "Status updated successfully"%string |}).
  - simpl. repeat constructor; simpl; intuition discriminate.
  - reflexivity.
Defined.

(** ** Deleting a meter *)

Lemma by_key_without {A : Type} (key : A -> N) (k other : N) (l : list A) :
  other <> k ->
  by_key key other (filter (fun r => negb (key r =? k)%N) l) = by_key key other l.
Proof.
  intros Hne. unfold by_key. induction l as [|r l IH]; [reflexivity|]. simpl.
  destruct (key r =? k)%N eqn:E; simpl.
  - apply N.eqb_eq in E.
    assert ((key r =? other)%N = false) as -> by (apply N.eqb_neq; congruence).
    exact IH.
  - destruct (key r =? other)%N; [f_equal|]; exact IH.
Qed.

(** X23. After a successful [delete_meter] no meter row has the id, every
    other meter is found as before, and agents, assignments and approval
    requests are untouched; from then on [get_meter] and a second
    [delete_meter] on the id fail with 404 "Meter not found", and so does
    every [create_assignment] for it. *)
Theorem delete_meter_effect :
  forall meter_id db db' resp,
    delete_meter meter_id db = Ok (db', resp) ->
    ~ In meter_id (map Meter.id (meters db')) /\
    (forall other, other <> meter_id -> meter_by_id other db' = meter_by_id other db) /\
    agents db' = agents db /\
    assignments db' = assignments db /\
    approval_requests db' = approval_requests db /\
    get_meter meter_id db' = Err (HTTPException HTTP_404_NOT_FOUND "Meter not found") /\
    delete_meter meter_id db' = Err (HTTPException HTTP_404_NOT_FOUND "Meter not found") /\
    (forall uuid4 now assignment_data,
        MeterAssignmentCreate.meter_id assignment_data = meter_id ->
        create_assignment uuid4 now assignment_data db' =
        Err (HTTPException HTTP_404_NOT_FOUND "Meter not found")).
Proof.
  intros meter_id db db' resp H. unfold delete_meter in H.
  destruct (meter_by_id meter_id db) as [|meter [|m' ms]] eqn:Em; simpl in H;
    try discriminate.
  destruct (active_assignments meter_id db); try discriminate.
  inversion H; subst db' resp. clear H.
  assert (Meter.id meter = meter_id) as Hid.
  { assert (In meter (meter_by_id meter_id db)) as Hin by (rewrite Em; now left).
    apply (by_key_In _ Meter.id) in Hin. tauto. }
  assert (~ In meter_id
            (map Meter.id
               (filter (fun m => negb (Meter.id m =? Meter.id meter)%N) (meters db))))
    as Hgone.
  { intros Hin. apply in_map_iff in Hin. destruct Hin as (m & Hm & Hin).
    apply filter_In in Hin. destruct Hin as [_ Hp].
    apply negb_true_iff in Hp. apply N.eqb_neq in Hp. congruence. }
  assert (meter_by_id meter_id
            (with_meters
               (filter (fun m => negb (Meter.id m =? Meter.id meter)%N) (meters db)) db)
          = []) as Hnone.
  { apply (by_key_absent _ Meter.id). exact Hgone. }
  split; [exact Hgone|]. split; [|split; [|split; [|split; [|split; [|split]]]]];
    try reflexivity.
  - intros other Hne. unfold meter_by_id. simpl.
    apply (by_key_without Meter.id (Meter.id meter) other (meters db)). congruence.
  - unfold get_meter. rewrite Hnone. reflexivity.
  - unfold delete_meter. rewrite Hnone. reflexivity.
  - intros uuid4 now assignment_data Hd. unfold create_assignment.
    rewrite Hd, Hnone. reflexivity.
Qed.

Lemma delete_meter_effect_witness :
  ~ In 3%N (map Meter.id (meters (committed db_ABC (delete_meter 3 db_ABC)))) /\
  (forall other, other <> 3%N ->
     meter_by_id other (committed db_ABC (delete_meter 3 db_ABC)) =
     meter_by_id other db_ABC) /\
  agents (committed db_ABC (delete_meter 3 db_ABC)) = agents db_ABC /\
  assignments (committed db_ABC (delete_meter 3 db_ABC)) = assignments db_ABC /\
  approval_requests (committed db_ABC (delete_meter 3 db_ABC)) =
    approval_requests db_ABC /\
  get_meter 3 (committed db_ABC (delete_meter 3 db_ABC)) =
    Err (HTTPException HTTP_404_NOT_FOUND "Meter not found") /\
  delete_meter 3 (committed db_ABC (delete_meter 3 db_ABC)) =
    Err (HTTPException HTTP_404_NOT_FOUND "Meter not found") /\
  (forall uuid4 now assignment_data,
      MeterAssignmentCreate.meter_id assignment_data = 3%N ->
      create_assignment uuid4 now assignment_data
        (committed db_ABC (delete_meter 3 db_ABC)) =
      Err (HTTPException HTTP_404_NOT_FOUND "Meter not found")).
Proof.
  apply (delete_meter_effect 3%N db_ABC (committed db_ABC (delete_meter 3 db_ABC))
           {| success := true; data := None;
              message := Some "Meter deleted successfully"%string |}).
  reflexivity.
Defined.

(** ** Pagination *)

Lemma pages_of_bounds total pagination :
  (0 <= total)%Z -> (1 <= PaginationParams.limit pagination)%Z ->
  ((pages_of total pagination - 1) * PaginationParams.limit pagination < total /\
   total <= pages_of total pagination * PaginationParams.limit pagination)%Z.
Proof.
  intros Ht Hl. unfold pages_of.
  set (l := PaginationParams.limit pagination) in *.
  pose proof (Z.div_mod (total + l - 1) l ltac:(lia)) as Hd.
  pose proof (Z.mod_pos_bound (total + l - 1) l ltac:(lia)) as Hm.
  nia.
Qed.

(** Below the page count is the same as before the end of the rows. *)
Lemma below_pages_of total pagination k :
  (0 <= total)%Z -> (1 <= PaginationParams.limit pagination)%Z ->
  (k < pages_of total pagination <-> k * PaginationParams.limit pagination < total)%Z.
Proof.
  intros Ht Hl. destruct (pages_of_bounds total pagination Ht Hl) as [H1 H2].
  split; intros H; nia.
Qed.

(** X24. For a total of at least 0 and a limit of at least 1, the page
    count the listing
    handlers report is the least number of pages of that size that hold
    the total; [has_next] is true exactly when rows remain after the
    current page, that is when page * limit < total; and [has_prev] exactly
    when the page is not the first. *)
Theorem pagination_counts :
  forall total pagination,
    (0 <= total)%Z ->
    (1 <= PaginationParams.limit pagination)%Z ->
    (total <= pages_of total pagination * PaginationParams.limit pagination)%Z /\
    (forall n, (0 <= n)%Z -> (total <= n * PaginationParams.limit pagination)%Z ->
               (pages_of total pagination <= n)%Z) /\
    (has_next total pagination = true <->
     (PaginationParams.page pagination * PaginationParams.limit pagination < total)%Z) /\
    (has_prev pagination = true <-> (1 < PaginationParams.page pagination)%Z).
Proof.
  intros total pagination Ht Hl.
  destruct (pages_of_bounds total pagination Ht Hl) as [H1 H2].
  split; [exact H2|]. split; [|split].
  - intros n Hn Hcover. nia.
  - unfold has_next. rewrite Z.ltb_lt. now apply below_pages_of.
  - unfold has_prev. apply Z.ltb_lt.
Qed.

Lemma pagination_counts_witness :
  (45 <= pages_of 45 {| PaginationParams.page := 2; PaginationParams.limit := 20 |} * 20)%Z /\
  (forall n, (0 <= n)%Z -> (45 <= n * 20)%Z ->
             (pages_of 45 {| PaginationParams.page := 2; PaginationParams.limit := 20 |}
              <= n)%Z) /\
  (has_next 45 {| PaginationParams.page := 2; PaginationParams.limit := 20 |} = true <->
   (2 * 20 < 45)%Z) /\
  (has_prev {| PaginationParams.page := 2; PaginationParams.limit := 20 |} = true <->
   (1 < 2)%Z).
Proof.
  apply (pagination_counts 45%Z
           {| PaginationParams.page := 2; PaginationParams.limit := 20 |}); simpl; lia.
Defined.

Lemma offset_limit_nonempty {A : Type} pagination (rows : list A) :
  (1 <= PaginationParams.page pagination)%Z ->
  (1 <= PaginationParams.limit pagination)%Z ->
  (offset_limit pagination rows <> [] <->
   ((PaginationParams.page pagination - 1) * PaginationParams.limit pagination
    < Z.of_nat (List.length rows))%Z).
Proof.
  intros Hp Hl. unfold offset_limit.
  set (l := PaginationParams.limit pagination) in *.
  set (p := PaginationParams.page pagination) in *.
  rewrite <- length_zero_iff_nil, length_firstn, length_skipn.
  assert (0 <= (p - 1) * l)%Z by nia. lia.
Qed.

(** X25. When the total is the number of rows of the query, with a page and
    a limit of at least 1: the page shown is non-empty exactly when its
    number is at most the page count, and [has_next] is true exactly when
    the next page is non-empty. *)
Theorem has_next_iff_next_page :
  forall (A : Type) pagination (rows : list A),
    (1 <= PaginationParams.page pagination)%Z ->
    (1 <= PaginationParams.limit pagination)%Z ->
    (offset_limit pagination rows <> [] <->
     (PaginationParams.page pagination
      <= pages_of (Z.of_nat (List.length rows)) pagination)%Z) /\
    (has_next (Z.of_nat (List.length rows)) pagination = true <->
     offset_limit {| PaginationParams.page := PaginationParams.page pagination + 1;
                     PaginationParams.limit := PaginationParams.limit pagination |}
                  rows <> []).
Proof.
  intros A pagination rows Hp Hl. split.
  - rewrite (offset_limit_nonempty pagination rows Hp Hl).
    rewrite <- (below_pages_of (Z.of_nat (List.length rows)) pagination
                  (PaginationParams.page pagination - 1)) by lia.
    lia.
  - rewrite offset_limit_nonempty by (simpl; lia). simpl.
    replace (PaginationParams.page pagination + 1 - 1)%Z
      with (PaginationParams.page pagination) by lia.
    unfold has_next. rewrite Z.ltb_lt. apply below_pages_of; lia.
Qed.

Lemma has_next_iff_next_page_witness :
  (offset_limit {| PaginationParams.page := 2; PaginationParams.limit := 2 |}
     [meter_A; meter_B; meter_C] <> [] <->
   (2 <= pages_of (Z.of_nat (List.length [meter_A; meter_B; meter_C]))
           {| PaginationParams.page := 2; PaginationParams.limit := 2 |})%Z) /\
  (has_next (Z.of_nat (List.length [meter_A; meter_B; meter_C]))
     {| PaginationParams.page := 2; PaginationParams.limit := 2 |} = true <->
   offset_limit {| PaginationParams.page := 2 + 1; PaginationParams.limit := 2 |}
     [meter_A; meter_B; meter_C] <> []).
Proof.
  apply (has_next_iff_next_page Meter.t
           {| PaginationParams.page := 2; PaginationParams.limit := 2 |}
           [meter_A; meter_B; meter_C]); simpl; lia.
Defined.

Lemma firstn_add_skipn {A : Type} (a b : nat) (l : list A) :
  firstn (a + b) l = firstn a l ++ firstn b (skipn a l).
Proof.
  revert l. induction a as [|a IH]; intros l; [reflexivity|].
  destruct l as [|x l]; simpl.
  - now rewrite firstn_nil.
  - now rewrite IH.
Qed.

Lemma pages_concat {A : Type} (size : nat) (rows : list A) (n : nat) :
  List.concat (map (fun k => firstn size (skipn (k * size) rows)) (seq 0 n)) =
  firstn (n * size) rows.
Proof.
  induction n as [|n IH]; [reflexivity|].
  rewrite seq_S, map_app, concat_app, IH. simpl. rewrite app_nil_r.
  replace (size + n * size) with (n * size + size) by lia.
  now rewrite firstn_add_skipn.
Qed.

(** X26. When the total is the number of rows of the query and the limit is
    at least 1, the pages 1 to [pages_of total], one after the other, are
    the rows of the query: every row is on exactly one page, in query
    order. *)
Theorem pages_partition_rows :
  forall (A : Type) (limit : Z) (rows : list A),
    (1 <= limit)%Z ->
    List.concat
      (map (fun k => offset_limit {| PaginationParams.page := Z.of_nat k + 1;
                                     PaginationParams.limit := limit |} rows)
           (seq 0 (Z.to_nat (pages_of (Z.of_nat (List.length rows))
                               {| PaginationParams.page := 1;
                                  PaginationParams.limit := limit |})))) = rows.
Proof.
  intros A limit rows Hl.
  rewrite (map_ext _ (fun k => firstn (Z.to_nat limit)
                                 (skipn (k * Z.to_nat limit) rows))).
  - rewrite pages_concat. apply firstn_all2.
    destruct (pages_of_bounds (Z.of_nat (List.length rows))
                {| PaginationParams.page := 1; PaginationParams.limit := limit |}
                ltac:(lia) Hl) as [H1 H2].
    simpl in *.
    set (n := pages_of (Z.of_nat (List.length rows))
                {| PaginationParams.page := 1; PaginationParams.limit := limit |}) in *.
    assert (0 <= n)%Z by nia.
    assert (Z.of_nat (Z.to_nat n * Z.to_nat limit) = (n * limit)%Z) as Hz
        by (rewrite Nat2Z.inj_mul, !Z2Nat.id; lia).
    lia.
  - intros k. unfold offset_limit. simpl.
    replace (Z.of_nat k + 1 - 1)%Z with (Z.of_nat k) by lia.
    rewrite Z2Nat.inj_mul by lia. now rewrite Nat2Z.id.
Qed.

Lemma pages_partition_rows_witness :
  List.concat
    (map (fun k => offset_limit {| PaginationParams.page := Z.of_nat k + 1;
                                   PaginationParams.limit := 2 |}
                     [meter_A; meter_B; meter_C])
         (seq 0 (Z.to_nat (pages_of (Z.of_nat (List.length [meter_A; meter_B; meter_C]))
                             {| PaginationParams.page := 1;
                                PaginationParams.limit := 2 |})))) =
  [meter_A; meter_B; meter_C].
Proof.
  apply (pages_partition_rows Meter.t 2%Z [meter_A; meter_B; meter_C]). lia.
Defined.

(** ** Creating and completing *)




(** X28. After a successful [create_assignment] the chosen agent is listed by
    [get_available_agents] exactly when its status is available and its
    load before the call was below max load minus one; the creation itself
    never looks at either, so the load can end above the max load. *)
Theorem create_assignment_then_available :
  forall uuid4 now assignment_data db db' resp agent ags,
    create_assignment uuid4 now assignment_data db = Ok (db', resp) ->
    agent_by_id (MeterAssignmentCreate.agent_id assignment_data) db = [agent] ->
    get_available_agents db' =
      Ok {| success := true; data := Some ags; message := None |} ->
    (In (MeterAssignmentCreate.agent_id assignment_data) (map Agent.id ags) <->
     Agent.status agent = AVAILABLE /\
     (Agent.current_load agent + 1 < Agent.max_load agent)%Z).
Proof.
  intros uuid4 now assignment_data db db' resp agent ags H Hag Hav.
  apply create_assignment_Ok in H.
  destruct H as (new & agent' & _ & _ & Hag' & _ & _ & ->).
  rewrite Hag in Hag'. inversion Hag'; subst agent'. clear Hag'.
  unfold get_available_agents in Hav. injection Hav as Hags. subst ags.
  set (agent1 := Agent.set_current_load (Agent.current_load agent + 1) agent) in *.
  assert (Agent.id agent = MeterAssignmentCreate.agent_id assignment_data) as Hid.
  { assert (In agent (agent_by_id (MeterAssignmentCreate.agent_id assignment_data) db))
      as Hin by (rewrite Hag; now left).
    apply (by_key_In _ Agent.id) in Hin. tauto. }
  assert (agent_by_id (MeterAssignmentCreate.agent_id assignment_data)
            (flush_agent agent1 (with_assignments (assignments db ++ [new]) db)) = [agent1])
    as Hrow.
  { apply (agent_by_id_flush _ agent); [exact Hag|reflexivity]. }
  split.
  - intros Hin. apply in_map_iff in Hin. destruct Hin as (x & Hx & Hin).
    apply filter_In in Hin. destruct Hin as [Hin Hp].
    assert (In x (agent_by_id (MeterAssignmentCreate.agent_id assignment_data)
                    (flush_agent agent1 (with_assignments (assignments db ++ [new]) db))))
      as Hx' by (apply (by_key_In _ Agent.id); auto).
    rewrite Hrow in Hx'. destruct Hx' as [<-|[]].
    apply andb_true_iff in Hp. destruct Hp as [Hs Hl]. simpl in Hs, Hl.
    split.
    + destruct (Agent.status agent); simpl in Hs; try discriminate. reflexivity.
    + now apply Z.ltb_lt.
  - intros [Hs Hl]. apply in_map_iff. exists agent1. split; [exact Hid|].
    apply filter_In. split.
    + assert (In agent1 [agent1]) as Hin by now left. rewrite <- Hrow in Hin.
      apply (by_key_In _ Agent.id) in Hin. tauto.
    + simpl. rewrite Hs. simpl. now apply Z.ltb_lt.
Qed.

Lemma create_assignment_then_available_witness :
  In 11%N (map Agent.id [agent_X 0]) <->
  Agent.status (agent_Y 9) = AVAILABLE /\
  (Agent.current_load (agent_Y 9) + 1 < Agent.max_load (agent_Y 9))%Z.
Proof.
  apply (create_assignment_then_available 30%N 9%Z (create_request 1 11) db_Y_nearly_full
           (committed db_Y_nearly_full
              (create_assignment 30 9 (create_request 1 11) db_Y_nearly_full))
           {| success := true; data := Some (sample_assignment_created 30 1 11 9);
              message := Some "Assignment created successfully"%string |}
           (agent_Y 9) [agent_X 0]).
  - reflexivity.
  - reflexivity.
  - reflexivity.
Defined.
